(** * The Fusion Brain (Kandinsky) client of kandinsky_image_generator.js

    A shallow embedding of the [KandinskyAPI] class and the properties of
    its four operations: [getPipeline], [generate], [checkGeneration] and
    [saveImages].

    - JavaScript values are a tree type [value]; objects are finite maps
      from property names to values.
    - An [async] method is a computation in a small state-and-exception
      monad [M]: the state counts the requests issued so far and records
      the trace of the effects (requests, progress callbacks, delays,
      downloads); an exception carries the [message] of the thrown [Error].
    - The remote service is a function giving the outcome of the k-th
      request; the text of the [TypeError] raised by the engine when a
      property of [null] or [undefined] is read is a parameter.
    - The JSDoc types [attempts] and [delay] as numbers; the model takes
      the integer ones, in the range (up to 2^53) where [attemptsLeft--] is
      exact. Image payloads and the prompt are strings, as the JSDoc types
      them; the options of [generate] and [saveImages] are arbitrary
      objects. *)

From stdpp Require Import gmap strings list fin_maps pretty.
From Equations Require Import Equations.

Set Warnings "-register-all".

#[local] Open Scope string_scope.
#[local] Open Scope Z_scope.
#[local] Open Scope list_scope.
#[local] Open Scope stdpp_scope.

(** ** JavaScript values *)

(** Numbers are the integer-valued ones ([VNum]) and [NaN]; functions,
    symbols and big integers are left out. *)
Inductive value : Type :=
| VUndefined
| VNull
| VBool (b : bool)
| VNum (n : Z)
| VNaN
| VStr (s : string)
| VArr (xs : list value)
| VObj (fields : gmap string value).

(** The completion of an evaluation: a value, or a thrown [Error] of which
    only the [message] is ever read by the client. *)
Inductive completion (A : Type) : Type :=
| Return (a : A)
| Throw (message : string).
Arguments Return {A} a.
Arguments Throw {A} message.

(** [ToBoolean]: the test of [if (v)], [!v] and [v || w]. *)
Definition truthy (v : value) : bool :=
  match v with
  | VUndefined | VNull | VNaN => false
  | VBool b => b
  | VNum n => negb (n =? 0)
  | VStr s => negb (String.eqb s "")
  | VArr _ | VObj _ => true
  end.

(** [a || b] *)
Definition or_else (a b : value) : value := if truthy a then a else b.

(** [ToString], as a template literal applies it, on the values whose text
    ECMAScript fixes: strings, booleans, [null], [undefined], [NaN],
    integers below 10^21 in magnitude (in decimal), objects that have no
    member named [toString] (as [[object Object]]) and arrays of such
    values. Beyond these the engine prints a number in exponent form, and
    raises a [TypeError] for an object with a [toString] member of its own
    that is not a function; a statement below that spells out a text takes
    it from a string. *)
Fixpoint to_string (v : value) : string :=
  match v with
  | VUndefined => "undefined"
  | VNull => "null"
  | VBool true => "true"
  | VBool false => "false"
  | VNum n => pretty n
  | VNaN => "NaN"
  | VStr s => s
  | VArr xs =>
      String.concat ","
        (map (fun x => match x with
                       | VUndefined | VNull => ""
                       | _ => to_string x
                       end) xs)
  | VObj _ => "[object Object]"
  end.

(** [v === 'literal'] and [v === n] for a numeric literal. *)
Definition strict_eq_string (v : value) (s : string) : bool :=
  match v with VStr t => String.eqb t s | _ => false end.

Definition strict_eq_number (v : value) (n : Z) : bool :=
  match v with VNum m => m =? n | _ => false end.

(** The document that the text [JSON.stringify(v)] denotes: members whose
    value is [undefined] are dropped, [undefined] and [NaN] inside an array
    become [null]; [None] when [JSON.stringify] returns [undefined]. *)
Fixpoint JSON_stringify (v : value) : option value :=
  match v with
  | VUndefined => None
  | VNaN => Some VNull
  | VArr xs => Some (VArr (map (fun x => default VNull (JSON_stringify x)) xs))
  | VObj fields => Some (VObj (omap JSON_stringify fields))
  | _ => Some v
  end.

(** [const { k = d } = options]: the default applies when the property is
    missing or [undefined]. *)
Definition destructure (options : gmap string value) (k : string) (d : value) : value :=
  match options !! k with
  | None | Some VUndefined => d
  | Some v => v
  end.

Section Engine.

(** [type_error v k]: the message of the [TypeError] raised when property
    [k] of [v] (which is [null] or [undefined]) is read. *)
Variable type_error : value -> string -> string.

(** [v.k] for a name [k] that the built-in prototypes do not define. *)
Definition get (v : value) (k : string) : completion value :=
  match v with
  | VUndefined | VNull => Throw (type_error v k)
  | VObj fields => Return (default VUndefined (fields !! k))
  | VArr xs =>
      Return (if String.eqb k "length" then VNum (Z.of_nat (length xs)) else VUndefined)
  | VStr s =>
      Return (if String.eqb k "length" then VNum (Z.of_nat (String.length s)) else VUndefined)
  | VBool _ | VNum _ | VNaN => Return VUndefined
  end.

(** [v[i]] for an index literal [i]. *)
Definition index (v : value) (i : nat) : completion value :=
  match v with
  | VUndefined | VNull => Throw (type_error v (pretty i))
  | VObj fields => Return (default VUndefined (fields !! pretty i))
  | VArr xs => Return (default VUndefined (xs !! i))
  | VStr s =>
      Return (match String.get i s with
              | Some c => VStr (String c EmptyString)
              | None => VUndefined
              end)
  | VBool _ | VNum _ | VNaN => Return VUndefined
  end.

End Engine.

(** ** The host: requests, responses and effects *)

(** A part of a [FormData] body: a text field or a [Blob] whose text is a
    JSON document. *)
Inductive part : Type :=
| Text (s : string)
| Blob (content : option value) (type : string).

Record request : Type := {
  method : string;
  url : string;
  headers : gmap string string;
  body : option (list (string * part))
}.

(** What [response.json()] settles to. *)
Inductive parsed : Type :=
| Parsed (data : value)
| Unparsable (message : string).

Record response : Type := {
  ok : bool;
  status : Z;
  statusText : string;
  json : parsed
}.

(** What [fetch] settles to: a rejection (network failure) with the message
    of its reason, or a response. *)
Inductive outcome : Type :=
| Rejected (message : string)
| Responded (r : response).

(** The argument of the progress callback. *)
Module Progress.
Record info : Type := {
  status : value;
  attemptsLeft : Z;
  totalAttempts : Z
}.
End Progress.

(** A progress callback returns or throws. *)
Definition callback : Type := Progress.info -> completion unit.

Inductive event : Type :=
| Fetch (req : request)
| OnProgress (i : Progress.info)
| Delay (ms : Z)
| Download (href filename : string).

Record state : Type := {
  requests : nat;
  trace : list event
}.

Definition M (A : Type) : Type := state -> completion A * state.

#[global] Instance M_ret : MRet M := fun A a s => (Return a, s).

#[global] Instance M_bind : MBind M := fun A B k m s =>
  match m s with
  | (Return a, s') => k a s'
  | (Throw e, s') => (Throw e, s')
  end.

Definition throw {A} (message : string) : M A := fun s => (Throw message, s).

Definition lift {A} (c : completion A) : M A := fun s => (c, s).

(** [try { m } catch (error) { handler error.message }] *)
Definition try_catch {A} (m : M A) (handler : string -> M A) : M A := fun s =>
  match m s with
  | (Throw e, s') => handler e s'
  | r => r
  end.

Definition emit (e : event) : M unit := fun s =>
  (Return (), {| requests := requests s; trace := trace s ++ [e] |}).

Definition initial : state := {| requests := 0; trace := [] |}.

Definition run {A} (m : M A) : completion A * state := m initial.

(** The events of a trace, by kind. *)
Definition fetches (t : list event) : list request :=
  omap (fun e => match e with Fetch r => Some r | _ => None end) t.

Definition progress_calls (t : list event) : list Progress.info :=
  omap (fun e => match e with OnProgress i => Some i | _ => None end) t.

Definition delays (t : list event) : list Z :=
  omap (fun e => match e with Delay ms => Some ms | _ => None end) t.

Definition downloads (t : list event) : list (string * string) :=
  omap (fun e => match e with Download h f => Some (h, f) | _ => None end) t.

Section Service.

Variable type_error : value -> string -> string.

(** [service k req]: how the [k]-th request of the run settles when it is
    [req]. *)
Variable service : nat -> request -> outcome.

(** [await fetch(url, init)] *)
Definition fetch (req : request) : M response := fun s =>
  let s' := {| requests := S (requests s); trace := trace s ++ [Fetch req] |} in
  match service (requests s) req with
  | Rejected message => (Throw message, s')
  | Responded r => (Return r, s')
  end.

(** [await response.json()] *)
Definition response_json (r : response) : M value :=
  match json r with
  | Parsed data => mret data
  | Unparsable message => throw message
  end.

(** [`${response.status} ${response.statusText}`] *)
Definition status_line (r : response) : string :=
  pretty (status r) +:+ " " +:+ statusText r.

(** ** class KandinskyAPI *)

Record KandinskyAPI : Type := {
  URL : string;
  AUTH_HEADERS : gmap string string
}.

Definition constructor (apiKey secretKey : string) (url : option string) : KandinskyAPI :=
  {| URL := default "https://api-key.fusionbrain.ai/" url;
     AUTH_HEADERS := {[ "X-Key" := "Key " +:+ apiKey;
                        "X-Secret" := "Secret " +:+ secretKey ]} |}.

Variable this : KandinskyAPI.

(** *** getPipeline *)

Definition pipelines_request : request :=
  {| method := "GET";
     url := URL this +:+ "key/api/v1/pipelines";
     headers := AUTH_HEADERS this;
     body := None |}.

Definition getPipeline : M value :=
  try_catch
    (response ← fetch pipelines_request;
     if negb (ok response) then
       throw ("Failed to get pipeline: " +:+ status_line response)
     else
       data ← response_json response;
       none ← (if negb (truthy data) then mret true
               else len ← lift (get type_error data "length");
                    mret (strict_eq_number len 0));
       if (none : bool) then throw "No pipelines available"
       else
         first ← lift (index type_error data 0);
         lift (get type_error first "id"))
    (fun message => throw ("Failed to get pipeline ID: " +:+ message)).

(** *** generate *)

(** The [params] object as it stands when it is serialised. *)
Definition generate_params (prompt : string) (options : gmap string value) : gmap string value :=
  let width := destructure options "width" (VNum 1024) in
  let height := destructure options "height" (VNum 576) in
  let numImages := destructure options "numImages" (VNum 1) in
  let style := destructure options "style" VNull in
  let negativePrompt := destructure options "negativePrompt" VNull in
  let params : gmap string value :=
    {[ "type" := VStr "GENERATE";
       "numImages" := numImages;
       "width" := width;
       "height" := height;
       "generateParams" := VObj {[ "query" := VStr prompt ]} ]} in
  let params := if truthy style then <["style" := style]> params else params in
  let params :=
    if truthy negativePrompt then <["negativePromptDecoder" := negativePrompt]> params
    else params in
  params.

Definition run_request (pipelineId : string) (params : gmap string value) : request :=
  let paramsBlob := Blob (JSON_stringify (VObj params)) "application/json" in
  let formData := [("pipeline_id", Text pipelineId); ("params", paramsBlob)] in
  {| method := "POST";
     url := URL this +:+ "key/api/v1/pipeline/run";
     headers := AUTH_HEADERS this;
     body := Some formData |}.

Definition generate (prompt pipelineId : string) (options : gmap string value) : M value :=
  try_catch
    (let params := generate_params prompt options in
     response ← fetch (run_request pipelineId params);
     if negb (ok response) then
       throw ("Failed to generate image: " +:+ status_line response)
     else
       data ← response_json response;
       pipeline_status ← lift (get type_error data "pipeline_status");
       if truthy pipeline_status then
         throw ("Service unavailable: " +:+ to_string pipeline_status)
       else
         lift (get type_error data "uuid"))
    (fun message => throw ("Failed to generate image: " +:+ message)).

(** *** checkGeneration *)

(** The options of [checkGeneration], the numbers among them integers. *)
Record check_options : Type := {
  attempts : option Z;
  delay : option Z;
  onProgress : option callback
}.

(** [options = {}] *)
Definition no_check_options : check_options :=
  {| attempts := None; delay := None; onProgress := None |}.

Definition status_request (requestId : string) : request :=
  {| method := "GET";
     url := URL this +:+ "key/api/v1/pipeline/status/" +:+ requestId;
     headers := AUTH_HEADERS this;
     body := None |}.

(** [if (onProgress) { onProgress(info) }] *)
Definition notify (onProgress : option callback) (i : Progress.info) : M unit :=
  match onProgress with
  | Some f => emit (OnProgress i) ;; lift (f i)
  | None => mret ()
  end.

(** [await new Promise(resolve => setTimeout(resolve, delay))] *)
Definition sleep (ms : Z) : M unit := emit (Delay ms).

(** One turn of the [while] loop, the [try] statement: [Some files] when
    the turn returns from the method, [None] when it falls through to the
    next turn (after [attemptsLeft--] and the delay). *)
Definition poll_once (requestId : string) (totalAttempts delay : Z)
    (onProgress : option callback) (attemptsLeft : Z) : M (option value) :=
  try_catch
    (response ← fetch (status_request requestId);
     if negb (ok response) then
       throw ("Failed to check generation status: " +:+ status_line response)
     else
       data ← response_json response;
       status ← lift (get type_error data "status");
       if strict_eq_string status "DONE" then
         result ← lift (get type_error data "result");
         files ← lift (get type_error result "files");
         mret (Some files)
       else if strict_eq_string status "FAIL" then
         errorDescription ← lift (get type_error data "errorDescription");
         let errorMsg := or_else errorDescription (VStr "Unknown error") in
         throw ("Generation failed: " +:+ to_string errorMsg)
       else
         notify onProgress
           {| Progress.status := status;
              Progress.attemptsLeft := attemptsLeft;
              Progress.totalAttempts := totalAttempts |} ;;
         sleep delay ;;
         mret None)
    (fun message => throw ("Error checking generation: " +:+ message)).

(** [while (attemptsLeft > 0) { ... } throw new Error('Generation timed out')] *)
#[derive(equations=no, eliminator=no)]
Equations? poll (requestId : string) (totalAttempts delay : Z)
    (onProgress : option callback) (attemptsLeft : Z) : M value
    by wf (Z.to_nat attemptsLeft) lt :=
poll requestId totalAttempts delay onProgress attemptsLeft
    with decide (attemptsLeft > 0) := {
  | left _ =>
      turn ← poll_once requestId totalAttempts delay onProgress attemptsLeft;
      match turn with
      | Some files => mret files
      | None => poll requestId totalAttempts delay onProgress (attemptsLeft - 1)
      end
  | right _ => throw "Generation timed out" }.
Proof. lia. Qed.

Definition checkGeneration (requestId : string) (options : check_options) : M value :=
  let attempts := default 20 (attempts options) in
  let delay := default 5000 (delay options) in
  let onProgress := onProgress options in
  let attemptsLeft := attempts in
  poll requestId attempts delay onProgress attemptsLeft.

(** *** saveImages *)

(** The body of the [forEach] callback: the name pushed on [filenames] and
    the link that is clicked. *)
Definition save_one (prefix : value) (i : nat) (imgData : string) : string * event :=
  let processedData :=
    if String.prefix "data:image" imgData then imgData
    else "data:image/png;base64," +:+ imgData in
  let filename := to_string prefix +:+ "_" +:+ pretty i +:+ ".png" in
  (filename, Download processedData filename).

Fixpoint save_from (prefix : value) (i : nat) (base64Images : list string) : M (list string) :=
  match base64Images with
  | [] => mret []
  | imgData :: rest =>
      let '(filename, click) := save_one prefix i imgData in
      emit click ;;
      filenames ← save_from prefix (S i) rest;
      mret (filename :: filenames)
  end.

Definition saveImages (base64Images : list string) (options : gmap string value)
    : M (list string) :=
  let prefix := destructure options "prefix" (VStr "kandinsky") in
  save_from prefix 0 base64Images.

End Service.

(** ** Vocabulary of the statements *)

(** The data of a successful, parsed response. *)
Definition data_of (o : outcome) : option value :=
  match o with
  | Rejected _ => None
  | Responded r =>
      if ok r then match json r with Parsed data => Some data | Unparsable _ => None end
      else None
  end.

(** [data.status] of a response object. *)
Definition status_in (fields : gmap string value) : value :=
  default VUndefined (fields !! "status").

(** A status that is neither ['DONE'] nor ['FAIL']. *)
Definition non_terminal (s : value) : bool :=
  negb (strict_eq_string s "DONE") && negb (strict_eq_string s "FAIL").

(** [data.status] of any parsed body: the member of an object,
    [undefined] for another value, and nothing for [null] and [undefined],
    where the read throws. *)
Definition status_of (data : value) : option value :=
  match data with
  | VUndefined | VNull => None
  | VObj fields => Some (status_in fields)
  | _ => Some VUndefined
  end.

(** The service answers with a body whose status can be read and is not
    terminal. *)
Definition pending (o : outcome) : Prop :=
  exists data s,
    data_of o = Some data /\ status_of data = Some s /\ non_terminal s = true.

(** The status that a poll observes, [undefined] when there is none. *)
Definition observed_status (o : outcome) : value :=
  match data_of o with
  | Some data => default VUndefined (status_of data)
  | None => VUndefined
  end.

(** The progress callback, when there is one, returns normally. *)
Definition returns_normally (onProgress : option callback) : Prop :=
  forall f i, onProgress = Some f -> f i = Return ().

(** The events of one call of the progress callback, when there is one. *)
Definition notified (onProgress : option callback) (i : Progress.info) : list event :=
  match onProgress with
  | Some _ => [OnProgress i]
  | None => []
  end.

(** The events of a turn of the loop that observes the non-terminal status
    [s] with [attemptsLeft] attempts left. *)
Definition pending_turn (req : request) (totalAttempts ms : Z)
    (onProgress : option callback) (s : value) (attemptsLeft : Z) : list event :=
  [Fetch req]
  ++ notified onProgress {| Progress.status := s;
                            Progress.attemptsLeft := attemptsLeft;
                            Progress.totalAttempts := totalAttempts |}
  ++ [Delay ms].

(** The events of [k] such turns in a row, the first of them answering
    request number [first] with [attemptsLeft] attempts left. *)
Fixpoint pending_turns (service : nat -> request -> outcome) (req : request)
    (totalAttempts ms : Z) (onProgress : option callback)
    (first : nat) (attemptsLeft : Z) (k : nat) : list event :=
  match k with
  | O => []
  | S k' =>
      pending_turn req totalAttempts ms onProgress
        (observed_status (service first req)) attemptsLeft
      ++ pending_turns service req totalAttempts ms onProgress
           (S first) (attemptsLeft - 1) k'
  end.

(** A transport or parse failure of a status poll, with the message of its
    cause: the request is rejected, the response is not a success, or its
    body does not parse. *)
Inductive poll_failure : outcome -> string -> Prop :=
| request_rejected message :
    poll_failure (Rejected message) message
| response_not_ok r :
    ok r = false ->
    poll_failure (Responded r) ("Failed to check generation status: " +:+ status_line r)
| body_unparsable r message :
    ok r = true -> json r = Unparsable message ->
    poll_failure (Responded r) message.

(** The message that [checkGeneration] throws for a ['FAIL'] status whose
    response object is [fields]. *)
Definition fail_message (fields : gmap string value) : string :=
  "Error checking generation: Generation failed: "
  +:+ to_string (or_else (default VUndefined (fields !! "errorDescription"))
                         (VStr "Unknown error")).

(** An option is omitted when its key is missing or holds [undefined]. *)
Definition omitted (options : gmap string value) (k : string) : Prop :=
  options !! k = None \/ options !! k = Some VUndefined.

(** The file name and the link of the image at position [i]. *)
Definition filename_at (prefix : value) (i : nat) : string :=
  to_string prefix +:+ "_" +:+ pretty i +:+ ".png".

Definition link_of (imgData : string) : string :=
  if String.prefix "data:image" imgData then imgData
  else "data:image/png;base64," +:+ imgData.

(** The engine message used in the examples (V8's wording). *)
Definition v8_type_error (v : value) (k : string) : string :=
  "Cannot read properties of " +:+ to_string v +:+ " (reading '" +:+ k +:+ "')".

(** A service that answers the k-th request with the k-th outcome of a
    script, and rejects once the script is over. *)
Definition scripted (script : list outcome) : nat -> request -> outcome :=
  fun k _ => default (Rejected "Failed to fetch") (script !! k).

(** A successful response with the given JSON data. *)
Definition ok_json (data : value) : outcome :=
  Responded {| ok := true; status := 200; statusText := "OK"; json := Parsed data |}.

Definition example_client : KandinskyAPI := constructor "k" "s" None.

Definition example_pending : outcome :=
  ok_json (VObj {[ "status" := VStr "PENDING" ]}).

Definition example_done : outcome :=
  ok_json (VObj {[ "status" := VStr "DONE";
                   "result" := VObj {[ "files" := VArr [VStr "iVBORw0KG"] ]} ]}).

Definition example_fail : outcome :=
  ok_json (VObj {[ "status" := VStr "FAIL"; "errorDescription" := VStr "quota exceeded" ]}).

Definition example_unavailable : outcome :=
  Responded {| ok := false; status := 503; statusText := "Service Unavailable";
               json := Unparsable "Unexpected token" |}.

(** ** Vocabulary of the further properties *)

(** A transport or parse failure of a request, with the message of its
    cause: the request is rejected, the response is not a success, or its
    body does not parse. [what] is the text that the method puts in front
    of the status line of a response that is not a success. *)
Inductive transport_failure (what : string) : outcome -> string -> Prop :=
| rejected_request message :
    transport_failure what (Rejected message) message
| unsuccessful_response r :
    ok r = false ->
    transport_failure what (Responded r) (what +:+ status_line r)
| unparsable_body r message :
    ok r = true -> json r = Unparsable message ->
    transport_failure what (Responded r) message.

(** The keys that the submitted document of [generate] can hold. *)
Definition payload_keys : list string :=
  ["type"; "numImages"; "width"; "height"; "generateParams"; "style";
   "negativePromptDecoder"].

(** The options that [generate] reads. *)
Definition generate_option_keys : list string :=
  ["width"; "height"; "numImages"; "style"; "negativePrompt"].

Definition example_server_error : outcome :=
  Responded {| ok := false; status := 500; statusText := "Internal Server Error";
               json := Parsed VNull |}.

Definition example_unparsable : outcome :=
  Responded {| ok := true; status := 200; statusText := "OK";
               json := Unparsable "Unexpected end of JSON input" |}.

(** The argument of the progress callback for the status [s]. *)
Definition progress_info (s : value) (attemptsLeft totalAttempts : Z) : Progress.info :=
  {| Progress.status := s;
     Progress.attemptsLeft := attemptsLeft;
     Progress.totalAttempts := totalAttempts |}.

(** The ways in which one turn of the polling loop can end, with the
    events that follow its request: it goes on to the next turn, it
    returns files, it throws after the request, or it throws because the
    progress callback threw. *)
Inductive poll_turn (totalAttempts ms : Z) (onProgress : option callback)
    (attemptsLeft : Z) : completion (option value) -> list event -> Prop :=
| turn_goes_on s :
    non_terminal s = true ->
    (forall f, onProgress = Some f ->
       f (progress_info s attemptsLeft totalAttempts) = Return ()) ->
    poll_turn totalAttempts ms onProgress attemptsLeft (Return None)
      (notified onProgress (progress_info s attemptsLeft totalAttempts) ++ [Delay ms])
| turn_returns files :
    poll_turn totalAttempts ms onProgress attemptsLeft (Return (Some files)) []
| turn_throws cause :
    poll_turn totalAttempts ms onProgress attemptsLeft
      (Throw ("Error checking generation: " +:+ cause)) []
| turn_callback_throws f s cause :
    onProgress = Some f ->
    non_terminal s = true ->
    f (progress_info s attemptsLeft totalAttempts) = Throw cause ->
    poll_turn totalAttempts ms onProgress attemptsLeft
      (Throw ("Error checking generation: " +:+ cause))
      [OnProgress (progress_info s attemptsLeft totalAttempts)].

(** The runs of the polling loop that starts with [attemptsLeft] attempts
    left: the completion and the events. *)
Inductive poll_run (req : request) (totalAttempts ms : Z) (onProgress : option callback)
    : Z -> completion value -> list event -> Prop :=
| run_exhausted attemptsLeft :
    attemptsLeft <= 0 ->
    poll_run req totalAttempts ms onProgress attemptsLeft
      (Throw "Generation timed out") []
| run_goes_on attemptsLeft extra c t :
    0 < attemptsLeft ->
    poll_turn totalAttempts ms onProgress attemptsLeft (Return None) extra ->
    poll_run req totalAttempts ms onProgress (attemptsLeft - 1) c t ->
    poll_run req totalAttempts ms onProgress attemptsLeft c (Fetch req :: extra ++ t)
| run_returns attemptsLeft files extra :
    0 < attemptsLeft ->
    poll_turn totalAttempts ms onProgress attemptsLeft (Return (Some files)) extra ->
    poll_run req totalAttempts ms onProgress attemptsLeft (Return files)
      (Fetch req :: extra)
| run_throws attemptsLeft message extra :
    0 < attemptsLeft ->
    poll_turn totalAttempts ms onProgress attemptsLeft (Throw message) extra ->
    poll_run req totalAttempts ms onProgress attemptsLeft (Throw message)
      (Fetch req :: extra).

(** A callback that throws. *)
Definition example_failing_callback : callback :=
  fun _ => Throw "progress bar is gone".


Definition example_done_without_result : outcome :=
  ok_json (VObj {[ "status" := VStr "DONE" ]}).

(** The base URL of a client built without one. *)
Definition default_url : string := "https://api-key.fusionbrain.ai/".

(** ** Properties *)

(** *** getPipeline *)

(** C7, amended. When the pipeline listing is a success whose body parses
    to a sequence with a first entry that is not [null], [getPipeline]
    returns the [id] of that first entry, whatever follows it: the [id]
    member of an object ([undefined] when it has none), and [undefined]
    for an entry that is not an object; one request is issued. *)
Theorem getPipeline_first_id type_error service this r first rest :
  service 0%nat (pipelines_request this) = Responded r ->
  ok r = true ->
  json r = Parsed (VArr (first :: rest)) ->
  first <> VNull ->
  first <> VUndefined ->
  run (getPipeline type_error service this)
  = (Return (match first with
             | VObj fields => default VUndefined (fields !! "id")
             | _ => VUndefined
             end),
     {| requests := 1; trace := [Fetch (pipelines_request this)] |}).
Proof.
  intros Hservice Hok Hjson Hnull Hundefined.
  unfold run, getPipeline, try_catch, mbind, M_bind, fetch, response_json; simpl.
  rewrite Hservice, Hok; simpl.
  rewrite Hjson; simpl. by destruct first.
Qed.

(** A listing of three entries, the second of which is [null]. *)
Lemma getPipeline_first_id_witness :
  run (getPipeline v8_type_error
         (scripted [ok_json (VArr [VObj {[ "id" := VStr "p1"; "name" := VStr "Kandinsky" ]};
                                   VNull; VObj {[ "id" := VStr "p2" ]}])])
         example_client)
  = (Return (VStr "p1"),
     {| requests := 1; trace := [Fetch (pipelines_request example_client)] |}).
Proof.
  rewrite (getPipeline_first_id v8_type_error _ example_client
             {| ok := true; status := 200; statusText := "OK";
                json := Parsed (VArr [VObj {[ "id" := VStr "p1"; "name" := VStr "Kandinsky" ]};
                                      VNull; VObj {[ "id" := VStr "p2" ]}]) |}
             (VObj {[ "id" := VStr "p1"; "name" := VStr "Kandinsky" ]})
             [VNull; VObj {[ "id" := VStr "p2" ]}])
    by done.
  reflexivity.
Defined.

(** C7 as it is worded fails: a listing whose only entry is [null] is a
    sequence with one entry, and [getPipeline] throws instead of returning
    an identifier. *)
Lemma getPipeline_null_entry_throws :
  run (getPipeline v8_type_error (scripted [ok_json (VArr [VNull])]) example_client)
  = (Throw "Failed to get pipeline ID: Cannot read properties of null (reading 'id')",
     {| requests := 1; trace := [Fetch (pipelines_request example_client)] |}).
Proof. reflexivity. Qed.

(** C8. When the body of the pipeline listing parses to an empty sequence,
    [getPipeline] returns no identifier: it throws the resolution error
    ["Failed to get pipeline ID: ..."], whose cause is ["No pipelines
    available"] when the response is a success. *)
Theorem getPipeline_empty type_error service this r :
  service 0%nat (pipelines_request this) = Responded r ->
  json r = Parsed (VArr []) ->
  exists cause,
    run (getPipeline type_error service this)
    = (Throw ("Failed to get pipeline ID: " +:+ cause),
       {| requests := 1; trace := [Fetch (pipelines_request this)] |})
    /\ (ok r = true -> cause = "No pipelines available").
Proof.
  intros Hservice Hjson.
  unfold run, getPipeline, try_catch, mbind, M_bind, fetch, response_json; simpl.
  rewrite Hservice. destruct (ok r); simpl.
  - rewrite Hjson; simpl. eexists; split; [reflexivity | done].
  - eexists; split; [reflexivity | done].
Qed.

(** A successful, empty listing. *)
Lemma getPipeline_empty_witness :
  exists cause,
    run (getPipeline v8_type_error (scripted [ok_json (VArr [])]) example_client)
    = (Throw ("Failed to get pipeline ID: " +:+ cause),
       {| requests := 1; trace := [Fetch (pipelines_request example_client)] |})
    /\ cause = "No pipelines available".
Proof.
  destruct (getPipeline_empty v8_type_error (scripted [ok_json (VArr [])]) example_client
              {| ok := true; status := 200; statusText := "OK"; json := Parsed (VArr []) |}
              eq_refl eq_refl) as [cause [Hrun Hcause]].
  exists cause. split; [exact Hrun | exact (Hcause eq_refl)].
Defined.

(** *** generate *)

Lemma destructure_omitted options k d :
  omitted options k -> destructure options k d = d.
Proof. unfold destructure; intros [-> | ->]; reflexivity. Qed.

Lemma destructure_falsy options k v :
  options !! k = Some v -> truthy v = false -> truthy (destructure options k VNull) = false.
Proof. unfold destructure; intros -> Hv; destruct v; done. Qed.

Lemma destructure_insert_ne options j k v d :
  j <> k -> destructure (<[j := v]> options) k d = destructure options k d.
Proof. intros Hne; unfold destructure; by rewrite lookup_insert_ne. Qed.

Lemma destructure_delete_ne options j k d :
  j <> k -> destructure (delete j options) k d = destructure options k d.
Proof. intros Hne; unfold destructure; by rewrite lookup_delete_ne. Qed.

Lemma destructure_delete options k d : destructure (delete k options) k d = d.
Proof. unfold destructure; by rewrite lookup_delete_eq. Qed.

(** The [style] member of [params] is the option when it is truthy, and is
    missing otherwise; likewise [negativePromptDecoder]. *)
Lemma generate_params_style prompt options :
  generate_params prompt options !! "style"
  = (let style := destructure options "style" VNull in
     if truthy style then Some style else None).
Proof.
  unfold generate_params; simpl.
  destruct (truthy (destructure options "style" VNull));
    destruct (truthy (destructure options "negativePrompt" VNull));
    by simplify_map_eq.
Qed.

Lemma generate_params_negativePromptDecoder prompt options :
  generate_params prompt options !! "negativePromptDecoder"
  = (let negativePrompt := destructure options "negativePrompt" VNull in
     if truthy negativePrompt then Some negativePrompt else None).
Proof.
  unfold generate_params; simpl.
  destruct (truthy (destructure options "style" VNull));
    destruct (truthy (destructure options "negativePrompt" VNull));
    by simplify_map_eq.
Qed.

(** Whatever the service answers, [generate] issues exactly one request,
    the submission of [params]. *)
Lemma generate_trace type_error service this prompt pipelineId options :
  snd (run (generate type_error service this prompt pipelineId options))
  = {| requests := 1;
       trace := [Fetch (run_request this pipelineId (generate_params prompt options))] |}.
Proof.
  unfold run, generate, try_catch, mbind, M_bind, fetch, response_json, lift, throw; simpl.
  destruct (service _ _) as [message | r]; simpl; [reflexivity |].
  destruct (ok r); simpl; [| reflexivity].
  destruct (json r) as [data | message]; simpl; [| reflexivity].
  destruct (get type_error data "pipeline_status") as [pipeline_status | message];
    simpl; [| reflexivity].
  destruct (truthy pipeline_status); simpl; [reflexivity |].
  destruct (get type_error data "uuid"); reflexivity.
Qed.

(** C5. The request that [generate] submits carries, as its [params] part,
    a JSON document in which the key [style] is missing when the [style]
    option is omitted, and the key [negativePromptDecoder] is missing when
    the [negativePrompt] option is omitted: the keys are absent, not bound
    to [null]. *)
Theorem generate_omitted_options_absent type_error service this
    prompt pipelineId options :
  let payload := omap JSON_stringify (generate_params prompt options) in
  trace (snd (run (generate type_error service this prompt pipelineId options)))
  = [Fetch {| method := "POST";
              url := URL this +:+ "key/api/v1/pipeline/run";
              headers := AUTH_HEADERS this;
              body := Some [("pipeline_id", Text pipelineId);
                            ("params", Blob (Some (VObj payload)) "application/json")] |}]
  /\ (omitted options "style" -> payload !! "style" = None)
  /\ (omitted options "negativePrompt" -> payload !! "negativePromptDecoder" = None).
Proof.
  intros payload. split; [by rewrite generate_trace |].
  unfold payload; split; intros Homitted; rewrite lookup_omap.
  - rewrite generate_params_style; simpl.
    by rewrite (destructure_omitted _ _ _ Homitted).
  - rewrite generate_params_negativePromptDecoder; simpl.
    by rewrite (destructure_omitted _ _ _ Homitted).
Qed.

(** Options with a width, an [undefined] style and no negative prompt. *)
Lemma generate_omitted_options_absent_witness :
  let options : gmap string value := {[ "width" := VNum 512; "style" := VUndefined ]} in
  let payload := omap JSON_stringify (generate_params "a red fox" options) in
  payload !! "style" = None
  /\ payload !! "negativePromptDecoder" = None
  /\ payload !! "width" = Some (VNum 512).
Proof.
  intros options payload.
  destruct (generate_omitted_options_absent v8_type_error (scripted []) example_client
              "a red fox" "pipeline-1" options) as (_ & Hstyle & Hnegative).
  split; [apply Hstyle; right; reflexivity |].
  split; [apply Hnegative; left; reflexivity | reflexivity].
Defined.

(** C6. When the response to the submission parses to an object whose
    [pipeline_status] is truthy, [generate] returns no job handle: it
    throws the submission error ["Failed to generate image: ..."], also
    when the transport reported success; in that case, for a status that
    is a string, the cause reads ["Service unavailable: <status>"]. *)
Theorem generate_service_unavailable type_error service this
    prompt pipelineId options r fields pipeline_status :
  service 0%nat (run_request this pipelineId (generate_params prompt options)) = Responded r ->
  json r = Parsed (VObj fields) ->
  fields !! "pipeline_status" = Some pipeline_status ->
  truthy pipeline_status = true ->
  exists cause,
    run (generate type_error service this prompt pipelineId options)
    = (Throw ("Failed to generate image: " +:+ cause),
       {| requests := 1;
          trace := [Fetch (run_request this pipelineId (generate_params prompt options))] |})
    /\ (ok r = true ->
        forall text, pipeline_status = VStr text ->
        cause = "Service unavailable: " +:+ text).
Proof.
  intros Hservice Hjson Hfield Htruthy.
  unfold run, generate, try_catch, mbind, M_bind, fetch, response_json, lift, throw; simpl.
  rewrite Hservice. destruct (ok r); simpl.
  - rewrite Hjson; simpl. rewrite Hfield; simpl. rewrite Htruthy.
    eexists; split; [reflexivity | by intros _ text ->].
  - eexists; split; [reflexivity | done].
Qed.

(** A successful response that reports a pipeline status next to a handle. *)
Lemma generate_service_unavailable_witness :
  fst (run (generate v8_type_error
              (scripted [ok_json (VObj {[ "pipeline_status" := VStr "DISABLED_BY_QUEUE";
                                          "uuid" := VStr "u-1" ]})])
              example_client "a red fox" "pipeline-1" ∅))
  = Throw "Failed to generate image: Service unavailable: DISABLED_BY_QUEUE".
Proof.
  destruct (generate_service_unavailable v8_type_error
              (scripted [ok_json (VObj {[ "pipeline_status" := VStr "DISABLED_BY_QUEUE";
                                          "uuid" := VStr "u-1" ]})])
              example_client "a red fox" "pipeline-1" ∅
              {| ok := true; status := 200; statusText := "OK";
                 json := Parsed (VObj {[ "pipeline_status" := VStr "DISABLED_BY_QUEUE";
                                         "uuid" := VStr "u-1" ]}) |}
              {[ "pipeline_status" := VStr "DISABLED_BY_QUEUE"; "uuid" := VStr "u-1" ]}
              (VStr "DISABLED_BY_QUEUE")
              ltac:(reflexivity) ltac:(reflexivity) ltac:(reflexivity) ltac:(reflexivity))
    as [cause [Hrun Hcause]].
  rewrite Hrun, (Hcause eq_refl "DISABLED_BY_QUEUE" eq_refl). reflexivity.
Defined.

(** C10. A [style] or [negativePrompt] option that is supplied with a falsy
    value (the empty string, [null], [0], [false], [NaN], [undefined]) is
    treated as if its key were not there: [generate] behaves as on the
    options without the key, and the submitted document has no [style]
    (no [negativePromptDecoder]) member. The test is the truthiness of the
    value, not the presence of the key. *)
Theorem generate_falsy_option_omitted type_error service this
    prompt pipelineId options v :
  truthy v = false ->
  (generate type_error service this prompt pipelineId (<["style" := v]> options)
   = generate type_error service this prompt pipelineId (delete "style" options)
   /\ omap JSON_stringify (generate_params prompt (<["style" := v]> options))
        !! "style" = None)
  /\
  (generate type_error service this prompt pipelineId (<["negativePrompt" := v]> options)
   = generate type_error service this prompt pipelineId (delete "negativePrompt" options)
   /\ omap JSON_stringify (generate_params prompt (<["negativePrompt" := v]> options))
        !! "negativePromptDecoder" = None).
Proof.
  intros Hfalsy.
  assert (Hstyle : truthy (destructure (<["style" := v]> options) "style" VNull) = false)
    by (apply (destructure_falsy _ _ v); [apply lookup_insert_eq | done]).
  assert (Hnegative :
            truthy (destructure (<["negativePrompt" := v]> options) "negativePrompt" VNull)
            = false)
    by (apply (destructure_falsy _ _ v); [apply lookup_insert_eq | done]).
  split; split.
  - unfold generate. f_equal. unfold generate_params.
    rewrite Hstyle, destructure_delete; simpl.
    by rewrite !destructure_insert_ne, !destructure_delete_ne.
  - rewrite lookup_omap, generate_params_style; simpl. by rewrite Hstyle.
  - unfold generate. f_equal. unfold generate_params.
    rewrite Hnegative, destructure_delete; simpl.
    by rewrite !destructure_insert_ne, !destructure_delete_ne.
  - rewrite lookup_omap, generate_params_negativePromptDecoder; simpl. by rewrite Hnegative.
Qed.

(** An empty style next to a negative prompt. *)
Lemma generate_falsy_option_omitted_witness :
  let options : gmap string value := {[ "negativePrompt" := VStr "blurry" ]} in
  generate v8_type_error (scripted []) example_client "a red fox" "pipeline-1"
    (<["style" := VStr ""]> options)
  = generate v8_type_error (scripted []) example_client "a red fox" "pipeline-1"
      (delete "style" options)
  /\ omap JSON_stringify (generate_params "a red fox" (<["style" := VStr ""]> options))
       !! "style" = None.
Proof.
  intros options.
  exact (proj1 (generate_falsy_option_omitted v8_type_error (scripted []) example_client
                  "a red fox" "pipeline-1" options (VStr "") ltac:(reflexivity))).
Defined.

(** *** saveImages *)

Lemma save_from_spec prefix first base64Images s :
  save_from prefix first base64Images s
  = (Return (imap (fun i _ => filename_at prefix (first + i)) base64Images),
     {| requests := requests s;
        trace := trace s
                 ++ imap (fun i imgData =>
                            Download (link_of imgData) (filename_at prefix (first + i)))
                      base64Images |}).
Proof.
  revert first s; induction base64Images as [| imgData rest IH]; intros first s.
  - simpl. rewrite app_nil_r. by destruct s.
  - cbn [save_from save_one]. unfold mbind, M_bind, emit.
    rewrite IH; cbn [requests trace]. unfold mret, M_ret.
    rewrite <- app_assoc. cbn [imap app].
    rewrite Nat.add_0_r.
    rewrite (imap_ext (fun i _ => filename_at prefix (S first + i))
               ((fun i _ => filename_at prefix (first + i)) ∘ S) rest)
      by (intros i x _; simpl; f_equal; lia).
    rewrite (imap_ext (fun i d => Download (link_of d) (filename_at prefix (S first + i)))
               ((fun i d => Download (link_of d) (filename_at prefix (first + i))) ∘ S) rest)
      by (intros i x _; simpl; do 2 f_equal; lia).
    reflexivity.
Qed.

Lemma length_append (a b : string) :
  String.length (a +:+ b) = (String.length a + String.length b)%nat.
Proof. induction a as [| c a IH]; simpl; [reflexivity | by rewrite IH]. Qed.

Lemma append_longer (a b : string) : a <> "" -> b <> a +:+ b.
Proof.
  intros Ha Heq. apply (f_equal String.length) in Heq.
  rewrite length_append in Heq.
  destruct a; [done | simpl in Heq; lia].
Qed.

(** C9, amended. With a [prefix] option that is a string, or omitted and
    then ["kandinsky"], [saveImages] returns the names [{prefix}_{i}.png]
    by zero-based position, in the order of the inputs, and clicks one
    link per image with that name. The link of a payload is the payload
    itself when it starts with ["data:image"], and the payload after the
    marker ["data:image/png;base64,"] otherwise: the marker is prepended
    if and only if the payload does not start with ["data:image"]. *)
Theorem saveImages_filenames_and_links base64Images options prefix :
  destructure options "prefix" (VStr "kandinsky") = VStr prefix ->
  let filename i := prefix +:+ "_" +:+ pretty i +:+ ".png" in
  let link imgData :=
    if String.prefix "data:image" imgData then imgData
    else "data:image/png;base64," +:+ imgData in
  run (saveImages base64Images options)
  = (Return (imap (fun i _ => filename i) base64Images),
     {| requests := 0;
        trace := imap (fun i imgData => Download (link imgData) (filename i))
                   base64Images |})
  /\ (forall imgData,
        link imgData = "data:image/png;base64," +:+ imgData
        <-> String.prefix "data:image" imgData = false)
  /\ (forall imgData,
        link imgData = imgData <-> String.prefix "data:image" imgData = true)
  /\ (omitted options "prefix" -> prefix = "kandinsky").
Proof.
  intros Hprefix filename link. split; [| split; [| split]].
  - unfold run, saveImages. rewrite Hprefix, save_from_spec. reflexivity.
  - intros imgData; unfold link.
    destruct (String.prefix "data:image" imgData); split; try done.
    intros Heq. by apply append_longer in Heq.
  - intros imgData; unfold link.
    destruct (String.prefix "data:image" imgData); split; try done.
    intros Heq. symmetry in Heq. by apply append_longer in Heq.
  - intros Homitted. rewrite (destructure_omitted _ _ _ Homitted) in Hprefix.
    by injection Hprefix as <-.
Qed.

(** A bare payload and a payload that is already a PNG data URL. *)
Lemma saveImages_filenames_and_links_witness :
  run (saveImages ["iVBORw0KG"; "data:image/png;base64,AAA"] ∅)
  = (Return ["kandinsky_0.png"; "kandinsky_1.png"],
     {| requests := 0;
        trace := [Download "data:image/png;base64,iVBORw0KG" "kandinsky_0.png";
                  Download "data:image/png;base64,AAA" "kandinsky_1.png"] |}).
Proof.
  rewrite (proj1 (saveImages_filenames_and_links
                    ["iVBORw0KG"; "data:image/png;base64,AAA"] ∅ "kandinsky"
                    ltac:(apply destructure_omitted; left; apply lookup_empty))).
  reflexivity.
Defined.

(** C9 as it is worded fails: a payload that does not start with the
    marker ["data:image/png;base64,"] but is a data URL of another image
    type is left as it is, the marker is not prepended. *)
Lemma saveImages_other_data_url_kept :
  String.prefix "data:image/png;base64," "data:image/jpeg;base64,AAA" = false
  /\ downloads (trace (snd (run (saveImages ["data:image/jpeg;base64,AAA"] ∅))))
     = [("data:image/jpeg;base64,AAA", "kandinsky_0.png")].
Proof. split; reflexivity. Qed.

(** *** checkGeneration *)

Section Polling.

Variable type_error : value -> string -> string.
Variable service : nat -> request -> outcome.
Variable this : KandinskyAPI.
Variable requestId : string.
Variables totalAttempts ms : Z.
Variable onProgress : option callback.

#[local] Abbreviation req := (status_request this requestId).

Lemma data_of_Some o data :
  data_of o = Some data ->
  exists r, o = Responded r /\ ok r = true /\ json r = Parsed data.
Proof.
  destruct o as [message | r]; simpl; [done |].
  destruct (ok r) eqn:Hok; [| done].
  destruct (json r) eqn:Hjson; [| done].
  intros [= <-]. by exists r.
Qed.

(** The loop, one turn unfolded. *)
Lemma poll_step attemptsLeft :
  poll type_error service this requestId totalAttempts ms onProgress attemptsLeft
  = if decide (attemptsLeft > 0) then
      turn ← poll_once type_error service this requestId totalAttempts ms onProgress
               attemptsLeft;
      match turn with
      | Some files => mret files
      | None =>
          poll type_error service this requestId totalAttempts ms onProgress
            (attemptsLeft - 1)
      end
    else throw "Generation timed out".
Proof.
  unfold poll at 1. rewrite Subterm.FixWf_unfold.
  - cbn [pr1 pr2]. unfold poll_functional.
    destruct (decide (attemptsLeft > 0)); reflexivity.
  - intros x f g Hfg. cbn [pr1 pr2]. unfold poll_functional.
    destruct (decide (pr2 (pr2 (pr2 (pr2 x))) > 0)); [| reflexivity].
    simpl. rewrite Hfg. reflexivity.
Qed.

Lemma notify_returns i s :
  returns_normally onProgress ->
  notify onProgress i s
  = (Return (), {| requests := requests s; trace := trace s ++ notified onProgress i |}).
Proof.
  intros Hreturns. unfold notify, notified.
  destruct onProgress as [f |] eqn:Hcallback.
  - unfold mbind, M_bind, emit, lift; simpl. by rewrite (Hreturns f i).
  - unfold mret, M_ret. rewrite app_nil_r. by destruct s.
Qed.

Lemma get_status data status :
  status_of data = Some status -> get type_error data "status" = Return status.
Proof. destruct data; simpl; by intros [= <-]. Qed.

(** A turn that observes a non-terminal status: the callback, when there
    is one, is called; if it returns the delay elapses and the loop goes
    on, if it throws the method throws. *)
Lemma poll_once_notified attemptsLeft s data status :
  data_of (service (requests s) req) = Some data ->
  status_of data = Some status ->
  non_terminal status = true ->
  poll_once type_error service this requestId totalAttempts ms onProgress attemptsLeft s
  = match onProgress with
    | None =>
        (Return None,
         {| requests := S (requests s); trace := trace s ++ [Fetch req; Delay ms] |})
    | Some f =>
        match f (progress_info status attemptsLeft totalAttempts) with
        | Return _ =>
            (Return None,
             {| requests := S (requests s);
                trace := trace s
                         ++ [Fetch req;
                             OnProgress (progress_info status attemptsLeft totalAttempts);
                             Delay ms] |})
        | Throw cause =>
            (Throw ("Error checking generation: " +:+ cause),
             {| requests := S (requests s);
                trace := trace s
                         ++ [Fetch req;
                             OnProgress (progress_info status attemptsLeft totalAttempts)] |})
        end
    end.
Proof.
  intros Hdata Hread Hstatus.
  apply data_of_Some in Hdata as (r & Hservice & Hok & Hjson).
  unfold poll_once, try_catch, mbind at 1, M_bind at 1, fetch.
  rewrite Hservice. unfold mbind, M_bind, response_json, lift; simpl.
  rewrite Hok, Hjson; simpl. rewrite (get_status _ _ Hread).
  unfold non_terminal in Hstatus. apply andb_true_iff in Hstatus as [Hdone Hfail].
  apply negb_true_iff in Hdone, Hfail. rewrite Hdone, Hfail.
  unfold notify, sleep, emit, progress_info.
  destruct onProgress as [f |]; unfold mbind, M_bind, mret, M_ret; simpl.
  - destruct (f _) as [[] | cause]; simpl; by rewrite <- !app_assoc.
  - by rewrite <- !app_assoc.
Qed.

(** A turn that observes a non-terminal status: the callback is told, the
    delay elapses, and the loop goes on. *)
Lemma poll_once_pending attemptsLeft s :
  pending (service (requests s) req) ->
  returns_normally onProgress ->
  poll_once type_error service this requestId totalAttempts ms onProgress attemptsLeft s
  = (Return None,
     {| requests := S (requests s);
        trace := trace s
                 ++ pending_turn req totalAttempts ms onProgress
                      (observed_status (service (requests s) req)) attemptsLeft |}).
Proof.
  intros (data & status & Hdata & Hread & Hstatus) Hreturns.
  rewrite (poll_once_notified _ _ data status) by done.
  unfold observed_status; rewrite Hdata, Hread; simpl.
  unfold pending_turn, notified, progress_info.
  destruct onProgress as [f |] eqn:Hcallback; [| done].
  by rewrite (Hreturns f _ eq_refl).
Qed.

(** A turn that observes ['DONE']: the method returns [data.result.files]. *)
Lemma poll_once_done attemptsLeft s fields result :
  data_of (service (requests s) req) = Some (VObj fields) ->
  fields !! "status" = Some (VStr "DONE") ->
  fields !! "result" = Some (VObj result) ->
  poll_once type_error service this requestId totalAttempts ms onProgress attemptsLeft s
  = (Return (Some (default VUndefined (result !! "files"))),
     {| requests := S (requests s); trace := trace s ++ [Fetch req] |}).
Proof.
  intros Hdata Hstatus Hresult.
  apply data_of_Some in Hdata as (r & Hservice & Hok & Hjson).
  unfold poll_once, try_catch, mbind at 1, M_bind at 1, fetch.
  rewrite Hservice. unfold mbind, M_bind, response_json, lift; simpl.
  rewrite Hok, Hjson; simpl. rewrite Hstatus; simpl. by rewrite Hresult.
Qed.

(** A turn that observes ['FAIL']: the method throws at once. *)
Lemma poll_once_fail attemptsLeft s fields :
  data_of (service (requests s) req) = Some (VObj fields) ->
  fields !! "status" = Some (VStr "FAIL") ->
  poll_once type_error service this requestId totalAttempts ms onProgress attemptsLeft s
  = (Throw (fail_message fields),
     {| requests := S (requests s); trace := trace s ++ [Fetch req] |}).
Proof.
  intros Hdata Hstatus.
  apply data_of_Some in Hdata as (r & Hservice & Hok & Hjson).
  unfold poll_once, try_catch, mbind at 1, M_bind at 1, fetch.
  rewrite Hservice. unfold mbind, M_bind, response_json, lift; simpl.
  rewrite Hok, Hjson; simpl. by rewrite Hstatus.
Qed.

(** A turn whose request or parse fails: the method throws at once. *)
Lemma poll_once_failure attemptsLeft s cause :
  poll_failure (service (requests s) req) cause ->
  poll_once type_error service this requestId totalAttempts ms onProgress attemptsLeft s
  = (Throw ("Error checking generation: " +:+ cause),
     {| requests := S (requests s); trace := trace s ++ [Fetch req] |}).
Proof.
  intros Hfailure.
  unfold poll_once, try_catch, mbind at 1, M_bind at 1, fetch.
  inversion Hfailure as [message Hservice | r Hok Hservice | r message Hok Hjson Hservice];
    subst; unfold mbind, M_bind, response_json, lift, throw; simpl.
  - reflexivity.
  - by rewrite Hok.
  - by rewrite Hok, Hjson.
Qed.


(** The loop at a turn that fails in transport or in parsing. *)
Lemma poll_failure_aborts attemptsLeft s cause :
  attemptsLeft > 0 ->
  poll_failure (service (requests s) req) cause ->
  poll type_error service this requestId totalAttempts ms onProgress attemptsLeft s
  = (Throw ("Error checking generation: " +:+ cause),
     {| requests := S (requests s); trace := trace s ++ [Fetch req] |}).
Proof.
  intros Hleft Hfailure. rewrite poll_step.
  destruct (decide (attemptsLeft > 0)) as [_ | Hno]; [| done].
  unfold mbind, M_bind. by rewrite (poll_once_failure _ _ cause).
Qed.

(** The loop at a turn that observes ['FAIL']. *)
Lemma poll_fail_aborts attemptsLeft s fields :
  attemptsLeft > 0 ->
  data_of (service (requests s) req) = Some (VObj fields) ->
  fields !! "status" = Some (VStr "FAIL") ->
  poll type_error service this requestId totalAttempts ms onProgress attemptsLeft s
  = (Throw (fail_message fields),
     {| requests := S (requests s); trace := trace s ++ [Fetch req] |}).
Proof.
  intros Hleft Hdata Hstatus. rewrite poll_step.
  destruct (decide (attemptsLeft > 0)) as [_ | Hno]; [| done].
  unfold mbind, M_bind. by rewrite (poll_once_fail _ _ fields).
Qed.

(** [k] turns in a row that observe non-terminal statuses leave the loop
    with [k] attempts less, after [k] requests and [k] delays. *)
Lemma poll_pending_turns k : forall attemptsLeft s,
  Z.of_nat k <= attemptsLeft ->
  (forall j, (j < k)%nat -> pending (service (requests s + j) req)) ->
  returns_normally onProgress ->
  poll type_error service this requestId totalAttempts ms onProgress attemptsLeft s
  = poll type_error service this requestId totalAttempts ms onProgress
      (attemptsLeft - Z.of_nat k)
      {| requests := requests s + k;
         trace := trace s
                  ++ pending_turns service req totalAttempts ms onProgress
                       (requests s) attemptsLeft k |}.
Proof.
  induction k as [| k IH]; intros attemptsLeft s Hle Hpending Hreturns.
  - simpl. rewrite Z.sub_0_r, Nat.add_0_r, app_nil_r. by destruct s.
  - rewrite poll_step. destruct (decide (attemptsLeft > 0)) as [_ | Hno]; [| lia].
    unfold mbind at 1, M_bind at 1.
    rewrite poll_once_pending; [| | done].
    2:{ specialize (Hpending 0%nat). rewrite Nat.add_0_r in Hpending. apply Hpending. lia. }
    rewrite IH; [| lia | | done].
    2:{ intros j Hj; cbn [requests].
        replace (S (requests s) + j)%nat with (requests s + S j)%nat by lia.
        apply Hpending. lia. }
    cbn [requests trace pending_turns].
    rewrite <- app_assoc.
    replace (attemptsLeft - 1 - Z.of_nat k) with (attemptsLeft - Z.of_nat (S k)) by lia.
    replace (S (requests s) + k)%nat with (requests s + S k)%nat by lia.
    reflexivity.
Qed.

End Polling.

(** The requests, delays and callback calls of the pending turns. *)
Lemma fetches_app t1 t2 : fetches (t1 ++ t2) = fetches t1 ++ fetches t2.
Proof. apply omap_app. Qed.

Lemma delays_app t1 t2 : delays (t1 ++ t2) = delays t1 ++ delays t2.
Proof. apply omap_app. Qed.

Lemma progress_calls_app t1 t2 :
  progress_calls (t1 ++ t2) = progress_calls t1 ++ progress_calls t2.
Proof. apply omap_app. Qed.

Lemma fetches_pending_turn req totalAttempts ms onProgress s attemptsLeft :
  fetches (pending_turn req totalAttempts ms onProgress s attemptsLeft) = [req].
Proof. unfold pending_turn, notified. by destruct onProgress. Qed.

Lemma delays_pending_turn req totalAttempts ms onProgress s attemptsLeft :
  delays (pending_turn req totalAttempts ms onProgress s attemptsLeft) = [ms].
Proof. unfold pending_turn, notified. by destruct onProgress. Qed.

Lemma progress_calls_pending_turn req totalAttempts ms onProgress s attemptsLeft :
  progress_calls (pending_turn req totalAttempts ms onProgress s attemptsLeft)
  = match onProgress with
    | Some _ => [{| Progress.status := s;
                    Progress.attemptsLeft := attemptsLeft;
                    Progress.totalAttempts := totalAttempts |}]
    | None => []
    end.
Proof. unfold pending_turn, notified. by destruct onProgress. Qed.

Lemma fetches_pending_turns service req totalAttempts ms onProgress k :
  forall first attemptsLeft,
  fetches (pending_turns service req totalAttempts ms onProgress first attemptsLeft k)
  = replicate k req.
Proof.
  induction k as [| k IH]; intros first attemptsLeft; [reflexivity |].
  cbn [pending_turns]. by rewrite fetches_app, fetches_pending_turn, IH.
Qed.

Lemma delays_pending_turns service req totalAttempts ms onProgress k :
  forall first attemptsLeft,
  delays (pending_turns service req totalAttempts ms onProgress first attemptsLeft k)
  = replicate k ms.
Proof.
  induction k as [| k IH]; intros first attemptsLeft; [reflexivity |].
  cbn [pending_turns]. by rewrite delays_app, delays_pending_turn, IH.
Qed.

(** The attempts left that the callback is told, turn after turn. *)
Lemma attemptsLeft_pending_turns service req totalAttempts ms f k :
  forall first attemptsLeft,
  map Progress.attemptsLeft
    (progress_calls
       (pending_turns service req totalAttempts ms (Some f) first attemptsLeft k))
  = map (fun j => attemptsLeft - Z.of_nat j) (seq 0 k).
Proof.
  induction k as [| k IH]; intros first attemptsLeft; [reflexivity |].
  cbn [pending_turns seq map].
  rewrite progress_calls_app, progress_calls_pending_turn, map_app, IH; simpl.
  rewrite Z.sub_0_r. f_equal.
  rewrite <- seq_shift, map_map. apply map_ext; intros j; lia.
Qed.

Lemma pending_observed o fields :
  data_of o = Some (VObj fields) -> observed_status o = status_in fields.
Proof. unfold observed_status; by intros ->. Qed.

Lemma fail_message_string fields d :
  fields !! "errorDescription" = Some (VStr d) ->
  d <> "" ->
  fail_message fields = "Error checking generation: Generation failed: " +:+ d.
Proof.
  intros Hfield Hd. unfold fail_message, or_else. rewrite Hfield; simpl.
  apply String.eqb_neq in Hd. by rewrite Hd.
Qed.

Lemma fail_message_falsy fields :
  truthy (default VUndefined (fields !! "errorDescription")) = false ->
  fail_message fields = "Error checking generation: Generation failed: Unknown error".
Proof. intros Hfalsy. unfold fail_message, or_else. by rewrite Hfalsy. Qed.

Lemma prefix_append_same (p q c : string) :
  String.prefix (p +:+ q) (p +:+ c) = String.prefix q c.
Proof.
  induction p as [| x p IH]; [reflexivity |].
  change (String.prefix (String x (p +:+ q)) (String x (p +:+ c)) = String.prefix q c).
  simpl. by destruct (Ascii.ascii_dec x x).
Qed.



(** C3, amended. With an integer number [n >= 1] of attempts, when each
    of the first [n] polls observes a non-terminal status and the progress
    callback, if there is one, returns normally, [checkGeneration] throws
    the timeout error ["Generation timed out"] after exactly [n] requests
    and exactly [n] delays. *)
Theorem checkGeneration_times_out type_error service this requestId options :
  let n := default 20 (attempts options) in
  let ms := default 5000 (delay options) in
  let req := status_request this requestId in
  1 <= n ->
  (forall k, (k < Z.to_nat n)%nat -> pending (service k req)) ->
  returns_normally (onProgress options) ->
  let final := run (checkGeneration type_error service this requestId options) in
  fst final = Throw "Generation timed out"
  /\ requests (snd final) = Z.to_nat n
  /\ fetches (trace (snd final)) = replicate (Z.to_nat n) req
  /\ delays (trace (snd final)) = replicate (Z.to_nat n) ms
  /\ (forall f, onProgress options = Some f ->
        map Progress.attemptsLeft (progress_calls (trace (snd final)))
        = map (fun j => n - Z.of_nat j) (seq 0 (Z.to_nat n))).
Proof.
  intros n ms req Hn Hpending Hreturns final.
  assert (Hfinal : final
    = (Throw "Generation timed out",
       {| requests := Z.to_nat n;
          trace := pending_turns service req n ms (onProgress options) 0 n (Z.to_nat n) |})).
  { unfold final, run, checkGeneration. fold n ms.
    rewrite (poll_pending_turns _ _ _ _ _ _ _ (Z.to_nat n)); [| lia | done | done].
    rewrite poll_step.
    destruct (decide (n - Z.of_nat (Z.to_nat n) > 0)) as [Hyes | _]; [lia |].
    reflexivity. }
  rewrite Hfinal; cbn [fst snd requests trace].
  split; [done |]. split; [done |].
  split; [apply fetches_pending_turns |].
  split; [apply delays_pending_turns |].
  intros f ->. apply attemptsLeft_pending_turns.
Qed.

(** Three attempts against a job that is done only at the fourth poll. *)
Lemma checkGeneration_times_out_witness :
  let final :=
    run (checkGeneration v8_type_error
           (scripted [example_pending; example_pending; example_pending; example_done])
           example_client "job-1"
           {| attempts := Some 3; delay := Some 10; onProgress := None |}) in
  fst final = Throw "Generation timed out"
  /\ length (fetches (trace (snd final))) = 3%nat
  /\ delays (trace (snd final)) = [10; 10; 10].
Proof.
  intros final.
  pose proof (checkGeneration_times_out v8_type_error
                (scripted [example_pending; example_pending; example_pending; example_done])
                example_client "job-1"
                {| attempts := Some 3; delay := Some 10; onProgress := None |}) as H.
  cbv zeta in H. fold final in H.
  destruct H as (Hfinal & _ & Hfetches & Hdelays & _).
  - done.
  - intros [| [| [| k]]] Hk;
      [by exists (VObj {[ "status" := VStr "PENDING" ]}), (VStr "PENDING")..
      | exfalso; revert Hk; apply Nat.le_ngt; do 3 apply le_n_S; apply Nat.le_0_l ].
  - by intros f i.
  - rewrite Hfinal, Hfetches, Hdelays. by repeat split.
Defined.

(** C3 as it is worded fails: every poll observes a non-terminal status,
    and yet there is no timeout, because the progress callback throws at
    the first of them; one request has been issued and no delay has
    elapsed. *)
Lemma checkGeneration_pending_but_callback_throws :
  run (checkGeneration v8_type_error (scripted [example_pending; example_pending])
         example_client "job-1"
         {| attempts := Some 2; delay := Some 10;
            onProgress := Some example_failing_callback |})
  = (Throw "Error checking generation: progress bar is gone",
     {| requests := 1;
        trace := [Fetch (status_request example_client "job-1");
                  OnProgress {| Progress.status := VStr "PENDING";
                                Progress.attemptsLeft := 2;
                                Progress.totalAttempts := 2 |}] |}).
Proof. reflexivity. Qed.

(** C2, amended. With at least one attempt, when the first poll observes
    ['FAIL'], [checkGeneration] throws at once an error that reads
    ["Error checking generation: ..."]: one request has been issued, no
    delay has elapsed and the callback has not been called. The error reads
    ["Error checking generation: Generation failed: <d>"] where [<d>] is
    the [errorDescription] when that is a non-empty string, and
    ["Unknown error"] when it is missing or falsy (the empty string, [0],
    [false] and [null] included). *)
Theorem checkGeneration_fail_status type_error service this requestId options fields :
  1 <= default 20 (attempts options) ->
  data_of (service 0%nat (status_request this requestId)) = Some (VObj fields) ->
  fields !! "status" = Some (VStr "FAIL") ->
  let final := run (checkGeneration type_error service this requestId options) in
  snd final = {| requests := 1; trace := [Fetch (status_request this requestId)] |}
  /\ (exists cause, fst final = Throw ("Error checking generation: " +:+ cause))
  /\ (forall d,
        fields !! "errorDescription" = Some (VStr d) ->
        d <> "" ->
        fst final = Throw ("Error checking generation: Generation failed: " +:+ d))
  /\ (truthy (default VUndefined (fields !! "errorDescription")) = false ->
        fst final = Throw "Error checking generation: Generation failed: Unknown error").
Proof.
  intros Hn Hdata Hstatus final.
  assert (Hfinal : final
    = (Throw (fail_message fields),
       {| requests := 1; trace := [Fetch (status_request this requestId)] |})).
  { unfold final, run, checkGeneration.
    by rewrite (poll_fail_aborts _ _ _ _ _ _ _ _ _ fields); [| lia | done | done]. }
  rewrite Hfinal; cbn [fst snd].
  split; [done |]. split; [| split].
  - unfold fail_message. eexists. reflexivity.
  - intros d Hfield Hd. by rewrite (fail_message_string _ d).
  - intros Hfalsy. by rewrite fail_message_falsy.
Qed.

(** A first poll that reports FAIL with a description. *)
Lemma checkGeneration_fail_status_witness :
  fst (run (checkGeneration v8_type_error (scripted [example_fail]) example_client "job-1"
              no_check_options))
  = Throw "Error checking generation: Generation failed: quota exceeded".
Proof.
  apply (checkGeneration_fail_status v8_type_error (scripted [example_fail])
           example_client "job-1" no_check_options
           {[ "status" := VStr "FAIL"; "errorDescription" := VStr "quota exceeded" ]});
    done.
Defined.

(** C2 as it is worded fails: an [errorDescription] that is present but
    falsy, the empty string, the number [0] or [false], is not carried; the
    generic message takes its place. *)
Lemma checkGeneration_fail_falsy_description :
  (({[ "status" := VStr "FAIL"; "errorDescription" := VStr "" ]} : gmap string value)
     !! "errorDescription" = Some (VStr "")
   /\ fst (run (checkGeneration v8_type_error
                  (scripted [ok_json (VObj {[ "status" := VStr "FAIL";
                                              "errorDescription" := VStr "" ]})])
                  example_client "job-1" no_check_options))
      = Throw "Error checking generation: Generation failed: Unknown error")
  /\ (({[ "status" := VStr "FAIL"; "errorDescription" := VNum 0 ]} : gmap string value)
        !! "errorDescription" = Some (VNum 0)
      /\ fst (run (checkGeneration v8_type_error
                     (scripted [ok_json (VObj {[ "status" := VStr "FAIL";
                                                 "errorDescription" := VNum 0 ]})])
                     example_client "job-1" no_check_options))
         = Throw "Error checking generation: Generation failed: Unknown error")
  /\ (({[ "status" := VStr "FAIL"; "errorDescription" := VBool false ]}
         : gmap string value) !! "errorDescription" = Some (VBool false)
      /\ fst (run (checkGeneration v8_type_error
                     (scripted [ok_json (VObj {[ "status" := VStr "FAIL";
                                                 "errorDescription" := VBool false ]})])
                     example_client "job-1" no_check_options))
         = Throw "Error checking generation: Generation failed: Unknown error").
Proof. repeat split; reflexivity. Qed.

(** C4. A status poll that fails in transport or in parsing (the request
    is rejected, the response is not a success, or its body does not
    parse) makes [checkGeneration] throw at once
    ["Error checking generation: <cause>"], whatever the state of the loop:
    no further request is issued and the failed poll is followed by no
    delay, so that it uses no attempt; after [k] polls that observed
    non-terminal statuses the run has made [k + 1] requests and waited [k]
    delays. The error is not the one of a ['FAIL'] status: that one reads
    ["Error checking generation: Generation failed: ..."], which the error
    of a failed poll never does when its cause does not itself read
    ["Generation failed: ..."], words that only the ['FAIL'] branch writes;
    the cause of a response that is not a success never reads so. *)
Theorem checkGeneration_poll_failure type_error service this requestId options :
  let n := default 20 (attempts options) in
  let ms := default 5000 (delay options) in
  let req := status_request this requestId in
  (forall attemptsLeft s cause,
     attemptsLeft > 0 ->
     poll_failure (service (requests s) req) cause ->
     poll type_error service this requestId n ms (onProgress options) attemptsLeft s
     = (Throw ("Error checking generation: " +:+ cause),
        {| requests := S (requests s); trace := trace s ++ [Fetch req] |}))
  /\ (forall k cause,
        Z.of_nat k < n ->
        (forall j, (j < k)%nat -> pending (service j req)) ->
        returns_normally (onProgress options) ->
        poll_failure (service k req) cause ->
        let final := run (checkGeneration type_error service this requestId options) in
        final
        = (Throw ("Error checking generation: " +:+ cause),
           {| requests := S k;
              trace := pending_turns service req n ms (onProgress options) 0 n k
                       ++ [Fetch req] |})
        /\ fetches (trace (snd final)) = replicate (S k) req
        /\ delays (trace (snd final)) = replicate k ms)
  /\ (forall cause,
        String.prefix "Generation failed: " cause = false ->
        String.prefix "Error checking generation: Generation failed: "
          ("Error checking generation: " +:+ cause) = false)
  /\ (forall r cause,
        poll_failure (Responded r) cause ->
        ok r = false ->
        String.prefix "Generation failed: " cause = false)
  /\ (forall attemptsLeft s fields,
        attemptsLeft > 0 ->
        data_of (service (requests s) req) = Some (VObj fields) ->
        fields !! "status" = Some (VStr "FAIL") ->
        truthy (default VUndefined (fields !! "errorDescription")) = false
        \/ (exists d, fields !! "errorDescription" = Some (VStr d)) ->
        exists message,
          fst (poll type_error service this requestId n ms (onProgress options)
                 attemptsLeft s) = Throw message
          /\ String.prefix "Error checking generation: Generation failed: " message = true).
Proof.
  intros n ms req. split; [| split; [| split; [| split]]].
  - intros attemptsLeft s cause Hleft Hfailure. by apply poll_failure_aborts.
  - intros k cause Hk Hpending Hreturns Hfailure final.
    assert (Hfinal : final
      = (Throw ("Error checking generation: " +:+ cause),
         {| requests := S k;
            trace := pending_turns service req n ms (onProgress options) 0 n k
                     ++ [Fetch req] |})).
    { unfold final, run, checkGeneration. fold n ms.
      rewrite (poll_pending_turns _ _ _ _ _ _ _ k); [| lia | done | done].
      by rewrite (poll_failure_aborts _ _ _ _ _ _ _ _ _ cause); [| lia | done]. }
    split; [exact Hfinal |]. rewrite Hfinal; cbn [snd trace]. split.
    + rewrite fetches_app, fetches_pending_turns. simpl. by rewrite <- replicate_S_end.
    + rewrite delays_app, delays_pending_turns. simpl. by rewrite app_nil_r.
  - intros cause Hcause.
    change "Error checking generation: Generation failed: "
      with ("Error checking generation: " +:+ "Generation failed: ").
    by rewrite prefix_append_same.
  - intros r cause Hfailure Hok.
    inversion Hfailure as [| r' Hok' | r' message Hok' Hjson]; [done | congruence].
  - intros attemptsLeft s fields Hleft Hdata Hstatus Hdescription.
    rewrite (poll_fail_aborts _ _ _ _ _ _ _ _ _ fields) by done.
    eexists; split; [reflexivity |].
    destruct Hdescription as [Hfalsy | [d Hfield]].
    + by rewrite fail_message_falsy.
    + destruct (decide (d = "")) as [-> | Hd].
      * rewrite fail_message_falsy; [done | by rewrite Hfield].
      * rewrite (fail_message_string _ d) by done.
        change "Error checking generation: Generation failed: "
          with ("Error checking generation: Generation failed: " +:+ "") at 1.
        rewrite prefix_append_same. by destruct d.
Qed.

(** A pending poll, then a response 503 on the last attempt. *)
Lemma checkGeneration_poll_failure_witness :
  run (checkGeneration v8_type_error
         (scripted [example_pending; example_unavailable; example_done])
         example_client "job-1"
         {| attempts := Some 2; delay := Some 10; onProgress := None |})
  = (Throw "Error checking generation: Failed to check generation status: 503 Service Unavailable",
     {| requests := 2;
        trace := [Fetch (status_request example_client "job-1"); Delay 10;
                  Fetch (status_request example_client "job-1")] |})
  /\ String.prefix "Error checking generation: Generation failed: "
       "Error checking generation: Failed to check generation status: 503 Service Unavailable"
     = false.
Proof.
  pose proof (checkGeneration_poll_failure v8_type_error
                (scripted [example_pending; example_unavailable; example_done])
                example_client "job-1"
                {| attempts := Some 2; delay := Some 10; onProgress := None |}) as H.
  cbv zeta in H. destruct H as (_ & Hrun & Hother & Hnot_ok & _).
  assert (Hfailure : poll_failure example_unavailable
                       "Failed to check generation status: 503 Service Unavailable")
    by exact (response_not_ok
                {| ok := false; status := 503; statusText := "Service Unavailable";
                   json := Unparsable "Unexpected token" |} eq_refl).
  split.
  - destruct (Hrun 1%nat "Failed to check generation status: 503 Service Unavailable")
      as (Hfinal & _).
    + done.
    + intros [| j] Hj;
        [by exists (VObj {[ "status" := VStr "PENDING" ]}), (VStr "PENDING") |].
      exfalso; revert Hj; apply Nat.le_ngt; apply le_n_S, Nat.le_0_l.
    + by intros f i.
    + exact Hfailure.
    + rewrite Hfinal. reflexivity.
  - apply (Hother "Failed to check generation status: 503 Service Unavailable").
    exact (Hnot_ok _ _ Hfailure eq_refl).
Defined.

(** ** Further properties *)

(** *** getPipeline: requests and errors *)

(** Whatever the service answers, [getPipeline] issues exactly one
    request, the listing. *)
Lemma getPipeline_trace type_error service this :
  snd (run (getPipeline type_error service this))
  = {| requests := 1; trace := [Fetch (pipelines_request this)] |}.
Proof.
  unfold run, getPipeline, try_catch, mbind, M_bind, fetch, response_json, lift, throw;
    simpl.
  destruct (service _ _) as [rejection | r]; simpl; [reflexivity |].
  destruct (ok r); simpl; [| reflexivity].
  destruct (json r) as [data | unparsable]; simpl; [| reflexivity].
  destruct (truthy data); simpl; [| reflexivity].
  destruct (get type_error data "length") as [len | e]; simpl; [| reflexivity].
  destruct (strict_eq_number len 0); simpl; [reflexivity |].
  destruct (index type_error data 0) as [first | e]; simpl; [| reflexivity].
  by destruct (get type_error first "id").
Qed.

(** X1. Whatever the service does, [getPipeline] issues exactly one
    request, the listing, and every error it throws reads
    ["Failed to get pipeline ID: ..."]. *)
Theorem getPipeline_one_request_uniform_error type_error service this :
  snd (run (getPipeline type_error service this))
  = {| requests := 1; trace := [Fetch (pipelines_request this)] |}
  /\ forall message,
       fst (run (getPipeline type_error service this)) = Throw message ->
       exists cause, message = "Failed to get pipeline ID: " +:+ cause.
Proof.
  split; [apply getPipeline_trace |].
  unfold run, getPipeline, try_catch, mbind, M_bind, fetch, response_json, lift, throw;
    simpl.
  destruct (service _ _) as [rejection | r]; simpl; [intros message [= <-]; eauto |].
  destruct (ok r); simpl; [| intros message [= <-]; eauto].
  destruct (json r) as [data | unparsable]; simpl; [| intros message [= <-]; eauto].
  destruct (truthy data); simpl; [| intros message [= <-]; eauto].
  destruct (get type_error data "length") as [len | e]; simpl;
    [| intros message [= <-]; eauto].
  destruct (strict_eq_number len 0); simpl; [intros message [= <-]; eauto |].
  destruct (index type_error data 0) as [first | e]; simpl;
    [| intros message [= <-]; eauto].
  destruct (get type_error first "id") as [id | e]; simpl;
    [intros message [=] | intros message [= <-]; eauto].
Qed.

(** A response 500: the error carries the words of the method. *)
Lemma getPipeline_one_request_uniform_error_witness :
  exists cause,
    "Failed to get pipeline ID: Failed to get pipeline: 500 Internal Server Error"
    = "Failed to get pipeline ID: " +:+ cause.
Proof.
  apply (proj2 (getPipeline_one_request_uniform_error v8_type_error
                  (scripted [example_server_error]) example_client)).
  reflexivity.
Defined.

(** X2. When the listing request fails in transport or in parsing,
    [getPipeline] throws ["Failed to get pipeline ID: <cause>"], where the
    cause is the message of the rejection or of the parse error, or
    ["Failed to get pipeline: <status> <statusText>"] for a response that
    is not a success. *)
Theorem getPipeline_transport_failure type_error service this cause :
  transport_failure "Failed to get pipeline: "
    (service 0%nat (pipelines_request this)) cause ->
  run (getPipeline type_error service this)
  = (Throw ("Failed to get pipeline ID: " +:+ cause),
     {| requests := 1; trace := [Fetch (pipelines_request this)] |}).
Proof.
  intros Hfailure.
  unfold run, getPipeline, try_catch, mbind, M_bind, fetch, response_json, lift, throw;
    simpl.
  inversion Hfailure as [message Hservice | r Hok Hservice | r message Hok Hjson Hservice];
    simpl.
  - reflexivity.
  - by rewrite Hok.
  - by rewrite Hok, Hjson.
Qed.

(** A response 500 with a status text. *)
Lemma getPipeline_transport_failure_witness :
  run (getPipeline v8_type_error (scripted [example_server_error]) example_client)
  = (Throw "Failed to get pipeline ID: Failed to get pipeline: 500 Internal Server Error",
     {| requests := 1; trace := [Fetch (pipelines_request example_client)] |}).
Proof.
  rewrite (getPipeline_transport_failure v8_type_error (scripted [example_server_error])
             example_client "Failed to get pipeline: 500 Internal Server Error").
  - reflexivity.
  - exact (unsuccessful_response "Failed to get pipeline: "
             {| ok := false; status := 500; statusText := "Internal Server Error";
                json := Parsed VNull |} eq_refl).
Defined.

(** X3. When the body of a successful listing parses to a falsy value
    ([null], [false], [0], the empty string), [getPipeline] reports that
    no pipeline is available, as for the empty sequence. *)
Theorem getPipeline_falsy_listing type_error service this data :
  data_of (service 0%nat (pipelines_request this)) = Some data ->
  truthy data = false ->
  run (getPipeline type_error service this)
  = (Throw "Failed to get pipeline ID: No pipelines available",
     {| requests := 1; trace := [Fetch (pipelines_request this)] |}).
Proof.
  intros Hdata Hfalsy.
  apply data_of_Some in Hdata as (r & Hservice & Hok & Hjson).
  unfold run, getPipeline, try_catch, mbind, M_bind, fetch, response_json, lift, throw;
    simpl.
  rewrite Hservice, Hok; simpl. rewrite Hjson; simpl. by rewrite Hfalsy.
Qed.

(** The body [null]. *)
Lemma getPipeline_falsy_listing_witness :
  run (getPipeline v8_type_error (scripted [ok_json VNull]) example_client)
  = (Throw "Failed to get pipeline ID: No pipelines available",
     {| requests := 1; trace := [Fetch (pipelines_request example_client)] |}).
Proof.
  exact (getPipeline_falsy_listing v8_type_error (scripted [ok_json VNull])
           example_client VNull eq_refl eq_refl).
Defined.

(** X4. When the first entry of a successful listing is [null] (or
    [undefined]), reading its [id] raises a [TypeError], and [getPipeline]
    throws it as ["Failed to get pipeline ID: <message of the TypeError>"];
    the entries that follow are not looked at. *)
Theorem getPipeline_unreadable_first_entry type_error service this first rest :
  data_of (service 0%nat (pipelines_request this)) = Some (VArr (first :: rest)) ->
  first = VNull \/ first = VUndefined ->
  run (getPipeline type_error service this)
  = (Throw ("Failed to get pipeline ID: " +:+ type_error first "id"),
     {| requests := 1; trace := [Fetch (pipelines_request this)] |}).
Proof.
  intros Hdata Hfirst.
  apply data_of_Some in Hdata as (r & Hservice & Hok & Hjson).
  unfold run, getPipeline, try_catch, mbind, M_bind, fetch, response_json, lift, throw;
    simpl.
  rewrite Hservice, Hok; simpl. rewrite Hjson; simpl.
  by destruct Hfirst as [-> | ->].
Qed.

(** A [null] entry in front of a descriptor. *)
Lemma getPipeline_unreadable_first_entry_witness :
  run (getPipeline v8_type_error
         (scripted [ok_json (VArr [VNull; VObj {[ "id" := VStr "p2" ]}])])
         example_client)
  = (Throw "Failed to get pipeline ID: Cannot read properties of null (reading 'id')",
     {| requests := 1; trace := [Fetch (pipelines_request example_client)] |}).
Proof.
  exact (getPipeline_unreadable_first_entry v8_type_error
           (scripted [ok_json (VArr [VNull; VObj {[ "id" := VStr "p2" ]}])])
           example_client VNull [VObj {[ "id" := VStr "p2" ]}]
           eq_refl (or_introl eq_refl)).
Defined.

(** *** generate: result, errors and submitted document *)

(** X5. When the submission is a success whose body parses to an object
    with a falsy or missing [pipeline_status], [generate] returns the
    [uuid] of that object ([undefined] when it has none), after one
    request. *)
Theorem generate_returns_uuid type_error service this prompt pipelineId options fields :
  data_of (service 0%nat (run_request this pipelineId (generate_params prompt options)))
  = Some (VObj fields) ->
  truthy (default VUndefined (fields !! "pipeline_status")) = false ->
  run (generate type_error service this prompt pipelineId options)
  = (Return (default VUndefined (fields !! "uuid")),
     {| requests := 1;
        trace := [Fetch (run_request this pipelineId (generate_params prompt options))] |}).
Proof.
  intros Hdata Hstatus.
  apply data_of_Some in Hdata as (r & Hservice & Hok & Hjson).
  unfold run, generate, try_catch, mbind, M_bind, fetch, response_json, lift, throw; simpl.
  rewrite Hservice, Hok; simpl. rewrite Hjson; simpl. by rewrite Hstatus.
Qed.

(** A response that holds a handle and a [null] pipeline status. *)
Lemma generate_returns_uuid_witness :
  fst (run (generate v8_type_error
              (scripted [ok_json (VObj {[ "uuid" := VStr "job-1";
                                          "pipeline_status" := VNull ]})])
              example_client "a red fox" "pipeline-1" ∅))
  = Return (VStr "job-1").
Proof.
  rewrite (generate_returns_uuid v8_type_error
             (scripted [ok_json (VObj {[ "uuid" := VStr "job-1";
                                         "pipeline_status" := VNull ]})])
             example_client "a red fox" "pipeline-1" ∅
             {[ "uuid" := VStr "job-1"; "pipeline_status" := VNull ]})
    by reflexivity.
  reflexivity.
Defined.

(** X6. Whatever the service does, [generate] issues exactly one request,
    the submission, and every error it throws reads
    ["Failed to generate image: ..."]. *)
Theorem generate_one_request_uniform_error type_error service this
    prompt pipelineId options :
  snd (run (generate type_error service this prompt pipelineId options))
  = {| requests := 1;
       trace := [Fetch (run_request this pipelineId (generate_params prompt options))] |}
  /\ forall message,
       fst (run (generate type_error service this prompt pipelineId options))
       = Throw message ->
       exists cause, message = "Failed to generate image: " +:+ cause.
Proof.
  split; [apply generate_trace |].
  unfold run, generate, try_catch, mbind, M_bind, fetch, response_json, lift, throw; simpl.
  destruct (service _ _) as [rejection | r]; simpl; [intros message [= <-]; eauto |].
  destruct (ok r); simpl; [| intros message [= <-]; eauto].
  destruct (json r) as [data | unparsable]; simpl; [| intros message [= <-]; eauto].
  destruct (get type_error data "pipeline_status") as [pipeline_status | e]; simpl;
    [| intros message [= <-]; eauto].
  destruct (truthy pipeline_status); simpl; [intros message [= <-]; eauto |].
  destruct (get type_error data "uuid") as [uuid | e]; simpl;
    [intros message [=] | intros message [= <-]; eauto].
Qed.

(** A response without a body that parses. *)
Lemma generate_one_request_uniform_error_witness :
  exists cause,
    "Failed to generate image: Unexpected end of JSON input"
    = "Failed to generate image: " +:+ cause.
Proof.
  apply (proj2 (generate_one_request_uniform_error v8_type_error
                  (scripted [example_unparsable]) example_client
                  "a red fox" "pipeline-1" ∅)).
  reflexivity.
Defined.

(** X7. When the submission fails in transport or in parsing, [generate]
    throws ["Failed to generate image: <cause>"]; for a response that is
    not a success the cause itself starts with the same words, so that the
    message reads ["Failed to generate image: Failed to generate image:
    <status> <statusText>"]. *)
Theorem generate_transport_failure type_error service this
    prompt pipelineId options cause :
  transport_failure "Failed to generate image: "
    (service 0%nat (run_request this pipelineId (generate_params prompt options))) cause ->
  run (generate type_error service this prompt pipelineId options)
  = (Throw ("Failed to generate image: " +:+ cause),
     {| requests := 1;
        trace := [Fetch (run_request this pipelineId (generate_params prompt options))] |})
  /\ forall r,
       service 0%nat (run_request this pipelineId (generate_params prompt options))
       = Responded r ->
       ok r = false ->
       cause = "Failed to generate image: " +:+ status_line r.
Proof.
  intros Hfailure. split.
  - unfold run, generate, try_catch, mbind, M_bind, fetch, response_json, lift, throw;
      simpl.
    inversion Hfailure as [message Hservice | r Hok Hservice | r message Hok Hjson Hservice];
      simpl.
    + reflexivity.
    + by rewrite Hok.
    + by rewrite Hok, Hjson.
  - intros r Hservice Hok. rewrite Hservice in Hfailure.
    inversion Hfailure as [| r' Hok' | r' message Hok' Hjson]; [done | congruence].
Qed.

(** A response 500 to the submission. *)
Lemma generate_transport_failure_witness :
  fst (run (generate v8_type_error (scripted [example_server_error]) example_client
              "a red fox" "pipeline-1" ∅))
  = Throw "Failed to generate image: Failed to generate image: 500 Internal Server Error".
Proof.
  rewrite (proj1 (generate_transport_failure v8_type_error (scripted [example_server_error])
                    example_client "a red fox" "pipeline-1" ∅
                    "Failed to generate image: 500 Internal Server Error"
                    (unsuccessful_response "Failed to generate image: "
                       {| ok := false; status := 500;
                          statusText := "Internal Server Error";
                          json := Parsed VNull |} eq_refl))).
  reflexivity.
Defined.

(** The members of [params] that are always there. *)
Lemma generate_params_fixed prompt options :
  generate_params prompt options !! "type" = Some (VStr "GENERATE")
  /\ generate_params prompt options !! "generateParams"
     = Some (VObj {[ "query" := VStr prompt ]})
  /\ generate_params prompt options !! "width"
     = Some (destructure options "width" (VNum 1024))
  /\ generate_params prompt options !! "height"
     = Some (destructure options "height" (VNum 576))
  /\ generate_params prompt options !! "numImages"
     = Some (destructure options "numImages" (VNum 1)).
Proof.
  unfold generate_params; simpl.
  destruct (truthy (destructure options "style" VNull));
    destruct (truthy (destructure options "negativePrompt" VNull));
    repeat split; by simplify_map_eq.
Qed.

Lemma generate_params_other prompt options k :
  k ∉ payload_keys -> generate_params prompt options !! k = None.
Proof.
  unfold payload_keys; intros Hk.
  repeat (apply not_elem_of_cons in Hk as [? Hk]).
  unfold generate_params; simpl.
  destruct (truthy (destructure options "style" VNull));
    destruct (truthy (destructure options "negativePrompt" VNull));
    by simplify_map_eq.
Qed.

Lemma destructure_defined options k d :
  d <> VUndefined -> destructure options k d <> VUndefined.
Proof. unfold destructure; intros Hd. by destruct (options !! k) as [[] |]. Qed.

Lemma JSON_stringify_defined v : v <> VUndefined -> is_Some (JSON_stringify v).
Proof. destruct v; simpl; eauto. done. Qed.

(** X8. The document that [generate] submits always holds the type
    ["GENERATE"] and the prompt under [generateParams.query]; its [width],
    [height] and [numImages] are 1024, 576 and 1 when the option is
    omitted, and the number given otherwise. *)
Theorem generate_payload_defaults prompt options :
  let payload := omap JSON_stringify (generate_params prompt options) in
  payload !! "type" = Some (VStr "GENERATE")
  /\ payload !! "generateParams" = Some (VObj {[ "query" := VStr prompt ]})
  /\ (omitted options "width" -> payload !! "width" = Some (VNum 1024))
  /\ (omitted options "height" -> payload !! "height" = Some (VNum 576))
  /\ (omitted options "numImages" -> payload !! "numImages" = Some (VNum 1))
  /\ (forall k n, k ∈ ["width"; "height"; "numImages"] ->
        options !! k = Some (VNum n) -> payload !! k = Some (VNum n)).
Proof.
  intros payload. unfold payload.
  destruct (generate_params_fixed prompt options)
    as (Htype & Hquery & Hwidth & Hheight & HnumImages).
  rewrite !lookup_omap, Htype, Hquery, Hwidth, Hheight, HnumImages; simpl.
  split; [done |]. split; [by rewrite omap_singleton_Some with (y := VStr prompt) |].
  split; [by intros Ho; rewrite (destructure_omitted _ _ _ Ho) |].
  split; [by intros Ho; rewrite (destructure_omitted _ _ _ Ho) |].
  split; [by intros Ho; rewrite (destructure_omitted _ _ _ Ho) |].
  intros k n Hk Hoption.
  assert (Hgiven : forall d, destructure options k d = VNum n)
    by (intros d; unfold destructure; by rewrite Hoption).
  rewrite lookup_omap.
  repeat (apply elem_of_cons in Hk as [-> | Hk]); [| | | by apply elem_of_nil in Hk].
  - by rewrite Hwidth, Hgiven.
  - by rewrite Hheight, Hgiven.
  - by rewrite HnumImages, Hgiven.
Qed.

(** A square image, the number of images left to the default. *)
Lemma generate_payload_defaults_witness :
  omap JSON_stringify
    (generate_params "a red fox" {[ "width" := VNum 768; "height" := VNum 768 ]})
    !! "width" = Some (VNum 768)
  /\ omap JSON_stringify
       (generate_params "a red fox" {[ "width" := VNum 768; "height" := VNum 768 ]})
       !! "numImages" = Some (VNum 1).
Proof.
  destruct (generate_payload_defaults "a red fox"
              {[ "width" := VNum 768; "height" := VNum 768 ]})
    as (_ & _ & _ & _ & HnumImages & Hgiven).
  split.
  - apply Hgiven; [apply elem_of_cons; by left | reflexivity].
  - apply HnumImages. left; reflexivity.
Defined.

(** X9. A truthy [style] is submitted under the key [style], a truthy
    [negativePrompt] under the key [negativePromptDecoder]; the document
    never has a member named [negativePrompt]. *)
Theorem generate_truthy_options_submitted prompt options :
  let payload := omap JSON_stringify (generate_params prompt options) in
  (forall style, options !! "style" = Some style -> truthy style = true ->
     payload !! "style" = JSON_stringify style /\ is_Some (payload !! "style"))
  /\ (forall negativePrompt,
        options !! "negativePrompt" = Some negativePrompt ->
        truthy negativePrompt = true ->
        payload !! "negativePromptDecoder" = JSON_stringify negativePrompt
        /\ is_Some (payload !! "negativePromptDecoder"))
  /\ payload !! "negativePrompt" = None.
Proof.
  intros payload. unfold payload. split; [| split].
  - intros style Hoption Htruthy.
    assert (Hgiven : destructure options "style" VNull = style)
      by (unfold destructure; rewrite Hoption; by destruct style).
    rewrite lookup_omap, generate_params_style; simpl. rewrite Hgiven, Htruthy; simpl.
    split; [done |]. apply JSON_stringify_defined. by destruct style.
  - intros negativePrompt Hoption Htruthy.
    assert (Hgiven : destructure options "negativePrompt" VNull = negativePrompt)
      by (unfold destructure; rewrite Hoption; by destruct negativePrompt).
    rewrite lookup_omap, generate_params_negativePromptDecoder; simpl.
    rewrite Hgiven, Htruthy; simpl.
    split; [done |]. apply JSON_stringify_defined. by destruct negativePrompt.
  - rewrite lookup_omap, generate_params_other; [done |].
    unfold payload_keys.
    repeat (apply not_elem_of_cons; split; [done |]). apply not_elem_of_nil.
Qed.

(** A style and a negative prompt. *)
Lemma generate_truthy_options_submitted_witness :
  omap JSON_stringify
    (generate_params "a red fox"
       {[ "style" := VStr "ANIME"; "negativePrompt" := VStr "blurry" ]})
    !! "style" = Some (VStr "ANIME")
  /\ omap JSON_stringify
       (generate_params "a red fox"
          {[ "style" := VStr "ANIME"; "negativePrompt" := VStr "blurry" ]})
       !! "negativePromptDecoder" = Some (VStr "blurry").
Proof.
  destruct (generate_truthy_options_submitted "a red fox"
              {[ "style" := VStr "ANIME"; "negativePrompt" := VStr "blurry" ]})
    as (Hstyle & Hnegative & _).
  split.
  - exact (proj1 (Hstyle (VStr "ANIME") ltac:(reflexivity) ltac:(reflexivity))).
  - exact (proj1 (Hnegative (VStr "blurry") ltac:(reflexivity) ltac:(reflexivity))).
Defined.

(** X10. The submitted document has the five members [type],
    [numImages], [width], [height] and [generateParams], and no member
    other than these, [style] and [negativePromptDecoder]; [generate]
    reads the five options [width], [height], [numImages], [style] and
    [negativePrompt] only, so that options that agree on these give the
    same run. *)
Theorem generate_payload_keys type_error service this prompt pipelineId options :
  let payload := omap JSON_stringify (generate_params prompt options) in
  (forall k, k ∈ ["type"; "numImages"; "width"; "height"; "generateParams"] ->
     is_Some (payload !! k))
  /\ (forall k, is_Some (payload !! k) -> k ∈ payload_keys)
  /\ (forall others,
        (forall k, k ∈ generate_option_keys -> others !! k = options !! k) ->
        generate type_error service this prompt pipelineId others
        = generate type_error service this prompt pipelineId options).
Proof.
  intros payload. unfold payload. split; [| split].
  - intros k Hk.
    destruct (generate_params_fixed prompt options)
      as (Htype & Hquery & Hwidth & Hheight & HnumImages).
    rewrite lookup_omap.
    repeat (apply elem_of_cons in Hk as [-> | Hk]); [| | | | | by apply elem_of_nil in Hk].
    + by rewrite Htype.
    + rewrite HnumImages. by apply JSON_stringify_defined, destructure_defined.
    + rewrite Hwidth. by apply JSON_stringify_defined, destructure_defined.
    + rewrite Hheight. by apply JSON_stringify_defined, destructure_defined.
    + by rewrite Hquery.
  - intros k Hsome. destruct (decide (k ∈ payload_keys)) as [| Hother]; [done |].
    rewrite lookup_omap, (generate_params_other _ _ _ Hother) in Hsome.
    by destruct Hsome.
  - intros others Hagree.
    assert (Hsame : forall k d, k ∈ generate_option_keys ->
                                destructure others k d = destructure options k d)
      by (intros k d Hk; unfold destructure; by rewrite (Hagree k Hk)).
    unfold generate. f_equal. unfold generate_params, generate_option_keys in *.
    rewrite !Hsame; [done | | | | |]; repeat constructor.
Qed.

(** An option that [generate] does not know. *)
Lemma generate_payload_keys_witness :
  generate v8_type_error (scripted []) example_client "a red fox" "pipeline-1"
    {[ "style" := VStr "ANIME"; "seed" := VNum 7 ]}
  = generate v8_type_error (scripted []) example_client "a red fox" "pipeline-1"
      {[ "style" := VStr "ANIME" ]}.
Proof.
  apply (generate_payload_keys v8_type_error (scripted []) example_client
           "a red fox" "pipeline-1" {[ "style" := VStr "ANIME" ]}).
  intros k Hk. unfold generate_option_keys in Hk.
  repeat (apply elem_of_cons in Hk as [-> | Hk]); try reflexivity.
  by apply elem_of_nil in Hk.
Defined.

(** *** checkGeneration: edge cases of the loop *)

(** X11. With no attempt to make ([attempts] zero or negative),
    [checkGeneration] throws the timeout error at once: no request is
    issued, no delay elapses and the callback is not called. *)
Theorem checkGeneration_no_attempts type_error service this requestId options :
  default 20 (attempts options) <= 0 ->
  run (checkGeneration type_error service this requestId options)
  = (Throw "Generation timed out", initial).
Proof.
  intros Hn. unfold run, checkGeneration. rewrite poll_step.
  by destruct (decide (default 20 (attempts options) > 0)) as [Hyes | _]; [lia |].
Qed.

(** No attempts against a job that is done. *)
Lemma checkGeneration_no_attempts_witness :
  run (checkGeneration v8_type_error (scripted [example_done]) example_client "job-1"
         {| attempts := Some 0; delay := None; onProgress := None |})
  = (Throw "Generation timed out", initial).
Proof.
  apply (checkGeneration_no_attempts v8_type_error (scripted [example_done])
           example_client "job-1"
           {| attempts := Some 0; delay := None; onProgress := None |}).
  done.
Defined.

(** X12. When the first [k] polls observe non-terminal statuses and poll
    number [k] observes ['DONE'] while attempts are left,
    [checkGeneration] returns the [result.files] of that response
    ([undefined] when the result object has none) after [k + 1] requests
    and [k] delays, whatever the number of attempts that remain. *)
Theorem checkGeneration_done_after_pending type_error service this requestId
    options k fields result :
  let n := default 20 (attempts options) in
  let ms := default 5000 (delay options) in
  let req := status_request this requestId in
  Z.of_nat k < n ->
  (forall j, (j < k)%nat -> pending (service j req)) ->
  returns_normally (onProgress options) ->
  data_of (service k req) = Some (VObj fields) ->
  fields !! "status" = Some (VStr "DONE") ->
  fields !! "result" = Some (VObj result) ->
  let final := run (checkGeneration type_error service this requestId options) in
  final
  = (Return (default VUndefined (result !! "files")),
     {| requests := S k;
        trace := pending_turns service req n ms (onProgress options) 0 n k
                 ++ [Fetch req] |})
  /\ fetches (trace (snd final)) = replicate (S k) req
  /\ delays (trace (snd final)) = replicate k ms.
Proof.
  intros n ms req Hk Hpending Hreturns Hdata Hstatus Hresult final.
  assert (Hfinal : final
    = (Return (default VUndefined (result !! "files")),
       {| requests := S k;
          trace := pending_turns service req n ms (onProgress options) 0 n k
                   ++ [Fetch req] |})).
  { unfold final, run, checkGeneration. fold n ms.
    rewrite (poll_pending_turns _ _ _ _ _ _ _ k); [| lia | done | done].
    rewrite poll_step. destruct (decide (n - Z.of_nat k > 0)) as [_ | Hno]; [| lia].
    unfold mbind, M_bind.
    by rewrite (poll_once_done _ _ _ _ _ _ _ _ _ fields result). }
  split; [exact Hfinal |]. rewrite Hfinal; cbn [snd trace]. split.
  - rewrite fetches_app, fetches_pending_turns. simpl. by rewrite <- replicate_S_end.
  - rewrite delays_app, delays_pending_turns. simpl. by rewrite app_nil_r.
Qed.

(** Done at the second poll, with eighteen attempts to spare. *)
Lemma checkGeneration_done_after_pending_witness :
  run (checkGeneration v8_type_error (scripted [example_pending; example_done])
         example_client "job-1" no_check_options)
  = (Return (VArr [VStr "iVBORw0KG"]),
     {| requests := 2;
        trace := [Fetch (status_request example_client "job-1"); Delay 5000;
                  Fetch (status_request example_client "job-1")] |}).
Proof.
  pose proof (checkGeneration_done_after_pending v8_type_error
                (scripted [example_pending; example_done])
                example_client "job-1" no_check_options 1
                {[ "status" := VStr "DONE";
                   "result" := VObj {[ "files" := VArr [VStr "iVBORw0KG"] ]} ]}
                {[ "files" := VArr [VStr "iVBORw0KG"] ]}) as H.
  cbv zeta in H. destruct H as (Hfinal & _).
  - done.
  - intros [| j] Hj; [by exists (VObj {[ "status" := VStr "PENDING" ]}), (VStr "PENDING") |].
    exfalso; revert Hj; apply Nat.le_ngt; apply le_n_S, Nat.le_0_l.
  - by intros f i.
  - reflexivity.
  - reflexivity.
  - reflexivity.
  - rewrite Hfinal. reflexivity.
Defined.

(** X13. When the first [k] polls observe non-terminal statuses and poll
    number [k] observes ['FAIL'] while attempts are left,
    [checkGeneration] throws an error that reads
    ["Error checking generation: ..."] after [k + 1] requests and [k]
    delays: the remaining attempts are not used. The error reads
    ["Error checking generation: Generation failed: <d>"] where [<d>] is
    the [errorDescription] when that is a non-empty string, and
    ["Unknown error"] when it is missing or falsy. *)
Theorem checkGeneration_fail_after_pending type_error service this requestId
    options k fields :
  let n := default 20 (attempts options) in
  let ms := default 5000 (delay options) in
  let req := status_request this requestId in
  Z.of_nat k < n ->
  (forall j, (j < k)%nat -> pending (service j req)) ->
  returns_normally (onProgress options) ->
  data_of (service k req) = Some (VObj fields) ->
  fields !! "status" = Some (VStr "FAIL") ->
  let final := run (checkGeneration type_error service this requestId options) in
  snd final
  = {| requests := S k;
       trace := pending_turns service req n ms (onProgress options) 0 n k
                ++ [Fetch req] |}
  /\ fetches (trace (snd final)) = replicate (S k) req
  /\ delays (trace (snd final)) = replicate k ms
  /\ (exists cause, fst final = Throw ("Error checking generation: " +:+ cause))
  /\ (forall d,
        fields !! "errorDescription" = Some (VStr d) ->
        d <> "" ->
        fst final = Throw ("Error checking generation: Generation failed: " +:+ d))
  /\ (truthy (default VUndefined (fields !! "errorDescription")) = false ->
        fst final = Throw "Error checking generation: Generation failed: Unknown error").
Proof.
  intros n ms req Hk Hpending Hreturns Hdata Hstatus final.
  assert (Hfinal : final
    = (Throw (fail_message fields),
       {| requests := S k;
          trace := pending_turns service req n ms (onProgress options) 0 n k
                   ++ [Fetch req] |})).
  { unfold final, run, checkGeneration. fold n ms.
    rewrite (poll_pending_turns _ _ _ _ _ _ _ k); [| lia | done | done].
    by rewrite (poll_fail_aborts _ _ _ _ _ _ _ _ _ fields); [| lia | done | done]. }
  rewrite Hfinal; cbn [fst snd trace].
  split; [done |]. split; [| split; [| split; [| split]]].
  - rewrite fetches_app, fetches_pending_turns. simpl. by rewrite <- replicate_S_end.
  - rewrite delays_app, delays_pending_turns. simpl. by rewrite app_nil_r.
  - unfold fail_message. eexists. reflexivity.
  - intros d Hfield Hd. by rewrite (fail_message_string _ d).
  - intros Hfalsy. by rewrite fail_message_falsy.
Qed.

(** A failure at the third poll. *)
Lemma checkGeneration_fail_after_pending_witness :
  fst (run (checkGeneration v8_type_error
              (scripted [example_pending; example_pending; example_fail])
              example_client "job-1"
              {| attempts := Some 5; delay := Some 10; onProgress := None |}))
  = Throw "Error checking generation: Generation failed: quota exceeded"
  /\ snd (run (checkGeneration v8_type_error
                 (scripted [example_pending; example_pending; example_fail])
                 example_client "job-1"
                 {| attempts := Some 5; delay := Some 10; onProgress := None |}))
     = {| requests := 3;
          trace := [Fetch (status_request example_client "job-1"); Delay 10;
                    Fetch (status_request example_client "job-1"); Delay 10;
                    Fetch (status_request example_client "job-1")] |}.
Proof.
  pose proof (checkGeneration_fail_after_pending v8_type_error
                (scripted [example_pending; example_pending; example_fail])
                example_client "job-1"
                {| attempts := Some 5; delay := Some 10; onProgress := None |} 2
                {[ "status" := VStr "FAIL";
                   "errorDescription" := VStr "quota exceeded" ]}) as H.
  cbv zeta in H. destruct H as (Hstate & _ & _ & _ & Hdescribed & _).
  - done.
  - intros [| [| j]] Hj;
      [by exists (VObj {[ "status" := VStr "PENDING" ]}), (VStr "PENDING").. |].
    exfalso; revert Hj; apply Nat.le_ngt; do 2 apply le_n_S; apply Nat.le_0_l.
  - by intros f i.
  - reflexivity.
  - reflexivity.
  - split; [by apply (Hdescribed "quota exceeded") | by rewrite Hstate].
Defined.

(** X14. When the first poll observes a non-terminal status and the
    progress callback throws, [checkGeneration] throws
    ["Error checking generation: <message of the callback>"] at once: the
    callback has been called once, no delay elapses and no further request
    is issued. *)
Theorem checkGeneration_callback_throws type_error service this requestId
    options f fields cause :
  let n := default 20 (attempts options) in
  let req := status_request this requestId in
  1 <= n ->
  data_of (service 0%nat req) = Some (VObj fields) ->
  non_terminal (status_in fields) = true ->
  onProgress options = Some f ->
  f (progress_info (status_in fields) n n) = Throw cause ->
  run (checkGeneration type_error service this requestId options)
  = (Throw ("Error checking generation: " +:+ cause),
     {| requests := 1;
        trace := [Fetch req; OnProgress (progress_info (status_in fields) n n)] |}).
Proof.
  intros n req Hn Hdata Hstatus Hcallback Hthrows.
  apply data_of_Some in Hdata as (r & Hservice & Hok & Hjson).
  unfold run, checkGeneration. fold n. rewrite poll_step.
  destruct (decide (n > 0)) as [_ | Hno]; [| lia].
  unfold mbind at 1, M_bind at 1.
  unfold poll_once, try_catch, mbind at 1, M_bind at 1, fetch. fold req.
  cbn [initial requests trace]. rewrite Hservice.
  unfold mbind, M_bind, response_json, lift; simpl.
  rewrite Hok, Hjson; simpl. fold (status_in fields).
  unfold non_terminal in Hstatus. apply andb_true_iff in Hstatus as [Hdone Hfail].
  apply negb_true_iff in Hdone, Hfail. rewrite Hdone, Hfail.
  rewrite Hcallback; simpl. unfold progress_info in Hthrows. by rewrite Hthrows.
Qed.

(** A callback that throws on its first call. *)
Lemma checkGeneration_callback_throws_witness :
  fst (run (checkGeneration v8_type_error (scripted [example_pending; example_done])
              example_client "job-1"
              {| attempts := None; delay := None;
                 onProgress := Some example_failing_callback |}))
  = Throw "Error checking generation: progress bar is gone".
Proof.
  rewrite (checkGeneration_callback_throws v8_type_error
             (scripted [example_pending; example_done]) example_client "job-1"
             {| attempts := None; delay := None;
                onProgress := Some example_failing_callback |}
             example_failing_callback {[ "status" := VStr "PENDING" ]}
             "progress bar is gone")
    by done.
  reflexivity.
Defined.

(** X15. When the first poll observes ['DONE'] but the response has no
    result object ([result] is missing or [null]), reading [result.files]
    raises a [TypeError] and [checkGeneration] throws it as
    ["Error checking generation: <message of the TypeError>"] instead of
    returning. *)
Theorem checkGeneration_done_without_result type_error service this requestId
    options fields :
  let result := default VUndefined (fields !! "result") in
  1 <= default 20 (attempts options) ->
  data_of (service 0%nat (status_request this requestId)) = Some (VObj fields) ->
  fields !! "status" = Some (VStr "DONE") ->
  result = VUndefined \/ result = VNull ->
  run (checkGeneration type_error service this requestId options)
  = (Throw ("Error checking generation: " +:+ type_error result "files"),
     {| requests := 1; trace := [Fetch (status_request this requestId)] |}).
Proof.
  intros result Hn Hdata Hstatus Hresult.
  apply data_of_Some in Hdata as (r & Hservice & Hok & Hjson).
  unfold run, checkGeneration. rewrite poll_step.
  destruct (decide (default 20 (attempts options) > 0)) as [_ | Hno]; [| lia].
  unfold mbind at 1, M_bind at 1.
  unfold poll_once, try_catch, mbind at 1, M_bind at 1, fetch.
  cbn [initial requests trace]. rewrite Hservice.
  unfold mbind, M_bind, response_json, lift; simpl.
  rewrite Hok, Hjson; simpl. rewrite Hstatus; simpl. fold result.
  by destruct Hresult as [-> | ->].
Qed.

(** A ['DONE'] response without a result. *)
Lemma checkGeneration_done_without_result_witness :
  fst (run (checkGeneration v8_type_error (scripted [example_done_without_result])
              example_client "job-1" no_check_options))
  = Throw "Error checking generation: Cannot read properties of undefined (reading 'files')".
Proof.
  rewrite (checkGeneration_done_without_result v8_type_error
             (scripted [example_done_without_result]) example_client "job-1"
             no_check_options {[ "status" := VStr "DONE" ]});
    [reflexivity | done | reflexivity | reflexivity | by left].
Defined.

(** *** checkGeneration: what every run looks like *)

Section Runs.

Variable type_error : value -> string -> string.
Variable service : nat -> request -> outcome.
Variable this : KandinskyAPI.
Variable requestId : string.
Variables totalAttempts ms : Z.
Variable onProgress : option callback.

#[local] Abbreviation req := (status_request this requestId).

(** Every turn issues one request and ends in one of the four ways. *)
Lemma poll_once_turn attemptsLeft s :
  exists c extra,
    poll_once type_error service this requestId totalAttempts ms onProgress attemptsLeft s
    = (c, {| requests := S (requests s); trace := trace s ++ Fetch req :: extra |})
    /\ poll_turn totalAttempts ms onProgress attemptsLeft c extra.
Proof.
  unfold poll_once, try_catch, mbind at 1, M_bind at 1, fetch.
  destruct (service (requests s) req) as [rejection | r];
    [eexists _, []; split; [reflexivity | constructor] |].
  unfold mbind, M_bind, response_json, lift, throw; simpl.
  destruct (ok r); simpl; [| eexists _, []; split; [reflexivity | constructor]].
  destruct (json r) as [data | unparsable]; simpl;
    [| eexists _, []; split; [reflexivity | constructor]].
  destruct (get type_error data "status") as [status | e]; simpl;
    [| eexists _, []; split; [reflexivity | constructor]].
  destruct (strict_eq_string status "DONE") eqn:Hdone.
  { destruct (get type_error data "result") as [result | e]; simpl;
      [| eexists _, []; split; [reflexivity | constructor]].
    destruct (get type_error result "files") as [files | e]; simpl;
      eexists _, []; split; try reflexivity; constructor. }
  destruct (strict_eq_string status "FAIL") eqn:Hfail.
  { destruct (get type_error data "errorDescription") as [errorDescription | e]; simpl;
      eexists _, []; split; try reflexivity; constructor. }
  assert (Hstatus : non_terminal status = true)
    by (unfold non_terminal; by rewrite Hdone, Hfail).
  unfold notify, sleep, emit.
  destruct onProgress as [f |] eqn:Hcallback; unfold mbind, M_bind, mret, M_ret; simpl.
  - destruct (f _) as [[] | cause] eqn:Hf; simpl.
    + eexists _, _; split; [| apply (turn_goes_on _ _ _ _ status Hstatus)].
      * unfold notified, progress_info; simpl. by rewrite <- !app_assoc.
      * by intros f' [= <-].
    + eexists _, _; split; [| by apply (turn_callback_throws _ _ _ _ f status cause)].
      unfold progress_info. by rewrite <- !app_assoc.
  - eexists _, _; split; [| apply (turn_goes_on _ _ _ _ status Hstatus)].
    + unfold notified; simpl. by rewrite <- !app_assoc.
    + by intros f' [=].
Qed.

(** The events of a turn beyond its request. *)
Lemma poll_turn_events attemptsLeft c extra :
  poll_turn totalAttempts ms onProgress attemptsLeft c extra ->
  fetches extra = []
  /\ delays extra = match c with Return None => [ms] | _ => [] end
  /\ (forall message, c = Throw message ->
        exists cause, message = "Error checking generation: " +:+ cause)
  /\ (forall i, i ∈ progress_calls extra ->
        i = progress_info (Progress.status i) attemptsLeft totalAttempts
        /\ non_terminal (Progress.status i) = true)
  /\ progress_calls extra
     = match onProgress, c with
       | Some _, Return None => progress_calls extra
       | Some _, Throw _ => progress_calls extra
       | _, _ => []
       end
  /\ (length (progress_calls extra) <= 1)%nat
  /\ (c = Return None -> is_Some onProgress -> length (progress_calls extra) = 1%nat).
Proof.
  intros [s Hs | files | cause | f s cause Hcallback Hs Hf];
    refine (conj _ (conj _ (conj _ (conj _ (conj _ (conj _ _)))))).
  - unfold notified. by destruct onProgress.
  - unfold notified. by destruct onProgress.
  - done.
  - unfold notified. destruct onProgress; simpl; intros i Hi.
    + by apply list_elem_of_singleton in Hi as ->.
    + by apply elem_of_nil in Hi.
  - unfold notified. by destruct onProgress.
  - unfold notified. destruct onProgress; simpl; lia.
  - unfold notified. intros _ [f ->]. reflexivity.
  - done.
  - done.
  - done.
  - intros i Hi. by apply elem_of_nil in Hi.
  - by destruct onProgress.
  - simpl; lia.
  - done.
  - done.
  - done.
  - intros message [= <-]. eauto.
  - intros i Hi. by apply elem_of_nil in Hi.
  - by destruct onProgress.
  - simpl; lia.
  - done.
  - done.
  - done.
  - intros message [= <-]. eauto.
  - simpl; intros i Hi. by apply list_elem_of_singleton in Hi as ->.
  - by rewrite Hcallback.
  - simpl; lia.
  - done.
Qed.

(** Every run of the loop is one of [poll_run]. *)
Lemma poll_runs k : forall attemptsLeft s,
  Z.to_nat attemptsLeft = k ->
  exists c t,
    poll type_error service this requestId totalAttempts ms onProgress attemptsLeft s
    = (c, {| requests := requests s + length (fetches t); trace := trace s ++ t |})
    /\ poll_run req totalAttempts ms onProgress attemptsLeft c t.
Proof.
  induction k as [| k IH]; intros attemptsLeft s Hk; rewrite poll_step.
  - destruct (decide (attemptsLeft > 0)) as [Hyes | Hno]; [lia |].
    exists (Throw "Generation timed out"), []. split; [| constructor; lia].
    unfold throw. rewrite app_nil_r, Nat.add_0_r. by destruct s.
  - destruct (decide (attemptsLeft > 0)) as [Hyes | Hno]; [| lia].
    destruct (poll_once_turn attemptsLeft s) as (c1 & extra & Honce & Hturn).
    unfold mbind, M_bind. rewrite Honce.
    destruct (poll_turn_events _ _ _ Hturn) as (Hfetches & _).
    destruct c1 as [[files |] | message].
    + exists (Return files), (Fetch req :: extra). split; [| constructor; [lia | done]].
      unfold mret, M_ret. cbn [fetches omap list_omap]. fold (fetches extra).
      rewrite Hfetches. simpl. do 2 f_equal. lia.
    + destruct (IH (attemptsLeft - 1)
                  {| requests := S (requests s);
                     trace := trace s ++ Fetch req :: extra |})
        as (c & t & Hpoll & Hrun); [lia |].
      exists c, (Fetch req :: extra ++ t). split; [| apply run_goes_on; [lia | done..]].
      rewrite Hpoll; cbn [requests trace].
      change (Fetch req :: extra ++ t) with ([Fetch req] ++ extra ++ t).
      rewrite !fetches_app, Hfetches. simpl.
      rewrite <- app_assoc. simpl. do 2 f_equal. lia.
    + exists (Throw message), (Fetch req :: extra). split; [| constructor; [lia | done]].
      cbn [fetches omap list_omap]. fold (fetches extra).
      rewrite Hfetches. simpl. do 2 f_equal. lia.
Qed.

(** Requests and delays of a run. *)
Lemma poll_run_requests attemptsLeft c t :
  poll_run req totalAttempts ms onProgress attemptsLeft c t ->
  (length (fetches t) <= Z.to_nat attemptsLeft)%nat
  /\ fetches t = replicate (length (fetches t)) req
  /\ delays t = replicate (length (delays t)) ms
  /\ downloads t = []
  /\ (c = Throw "Generation timed out" ->
        length (fetches t) = Z.to_nat attemptsLeft
        /\ length (delays t) = Z.to_nat attemptsLeft)
  /\ (c <> Throw "Generation timed out" ->
        length (fetches t) = S (length (delays t)))
  /\ (forall message, c = Throw message ->
        message = "Generation timed out"
        \/ exists cause, message = "Error checking generation: " +:+ cause)
  /\ (length (delays t) <= length (fetches t))%nat.
Proof.
  induction 1 as [a Ha | a extra c t Ha Hturn Hrun IH | a files extra Ha Hturn
                  | a message extra Ha Hturn].
  - simpl. repeat split; try done; try lia. intros message [= <-]. by left.
  - destruct (poll_turn_events _ _ _ Hturn) as (Hf & Hd & _).
    destruct IH
      as (Hle & Hfetches & Hdelays & Hdownloads & Htimeout & Hother & Hthrow & Hfewer).
    assert (Hfetches' : fetches (Fetch req :: extra ++ t) = req :: fetches t).
    { change (Fetch req :: extra ++ t) with ([Fetch req] ++ extra ++ t).
      by rewrite !fetches_app, Hf. }
    assert (Hdelays' : delays (Fetch req :: extra ++ t) = ms :: delays t).
    { change (Fetch req :: extra ++ t) with ([Fetch req] ++ extra ++ t).
      by rewrite !delays_app, Hd. }
    assert (Hdownloads' : downloads (Fetch req :: extra ++ t) = []).
    { change (Fetch req :: extra ++ t) with ([Fetch req] ++ extra ++ t).
      unfold downloads in *. rewrite !omap_app, Hdownloads, app_nil_r. simpl.
      inversion Hturn as [s Hs Hc Hextra | | |]; subst.
      unfold notified. by destruct onProgress. }
    rewrite Hfetches', Hdelays', Hdownloads'; cbn [length replicate].
    split; [lia |]. split; [by rewrite <- Hfetches |]. split; [by rewrite <- Hdelays |].
    split; [done |]. split; [| split; [| split; [done | lia]]].
    + intros Hc. destruct (Htimeout Hc). lia.
    + intros Hc. specialize (Hother Hc). lia.
  - inversion Hturn; subst. simpl. repeat split; try done; try lia.
  - destruct (poll_turn_events _ _ _ Hturn) as (_ & _ & Hprefix & _).
    destruct (Hprefix message eq_refl) as [cause ->].
    inversion Hturn; subst; simpl; repeat split; try done; try lia;
      intros message [= <-]; right; eauto.
Qed.

(** The calls of the progress callback in a run. *)
Lemma poll_run_progress attemptsLeft c t :
  poll_run req totalAttempts ms onProgress attemptsLeft c t ->
  (forall i, i ∈ progress_calls t ->
     Progress.totalAttempts i = totalAttempts
     /\ 1 <= Progress.attemptsLeft i <= attemptsLeft
     /\ non_terminal (Progress.status i) = true)
  /\ map Progress.attemptsLeft (progress_calls t)
     = map (fun j => attemptsLeft - Z.of_nat j) (seq 0 (length (progress_calls t)))
  /\ (onProgress = None -> progress_calls t = [])
  /\ (is_Some onProgress ->
        length (delays t) <= length (progress_calls t) <= S (length (delays t)))%nat.
Proof.
  induction 1 as [a Ha | a extra c t Ha Hturn Hrun IH | a files extra Ha Hturn
                  | a message extra Ha Hturn].
  - refine (conj _ (conj _ (conj _ _))); simpl; [| done | done | lia].
    intros i Hi. by apply elem_of_nil in Hi.
  - destruct (poll_turn_events _ _ _ Hturn)
      as (_ & Hd & _ & Hinfo & Hnone & Hone & Hcalled).
    destruct IH as (Hall & Hleft & Hno & Hcount).
    assert (Hcalls : progress_calls (Fetch req :: extra ++ t)
                     = progress_calls extra ++ progress_calls t).
    { change (Fetch req :: extra ++ t) with ([Fetch req] ++ extra ++ t).
      by rewrite !progress_calls_app. }
    assert (Hdelays : delays (Fetch req :: extra ++ t) = ms :: delays t).
    { change (Fetch req :: extra ++ t) with ([Fetch req] ++ extra ++ t).
      by rewrite !delays_app, Hd. }
    rewrite Hcalls, Hdelays.
    refine (conj _ (conj _ (conj _ _))).
    + intros i Hi. apply elem_of_app in Hi as [Hi | Hi].
      * destruct (Hinfo i Hi) as [-> Hs]. simpl. repeat split; [lia | lia | done].
      * destruct (Hall i Hi) as (? & ? & ?). repeat split; [done | lia | lia | done].
    + destruct onProgress as [f |] eqn:Hcallback.
      * specialize (Hcalled eq_refl ltac:(eauto)).
        destruct (progress_calls extra) as [| i [| ? ?]] eqn:Hextra; [done | | done].
        destruct (Hinfo i ltac:(by apply list_elem_of_singleton)) as [-> _].
        cbn [app map length seq Progress.attemptsLeft progress_info]. rewrite Hleft.
        rewrite Z.sub_0_r. f_equal. rewrite <- seq_shift, map_map.
        apply map_ext; intros j; lia.
      * rewrite Hnone, (Hno eq_refl). reflexivity.
    + intros Hcallback. rewrite Hcallback in Hnone. by rewrite Hnone, (Hno Hcallback).
    + intros Hcallback. specialize (Hcount Hcallback).
      specialize (Hcalled eq_refl Hcallback).
      rewrite length_app, Hcalled. cbn [length]. lia.
  - inversion Hturn; subst.
    refine (conj _ (conj _ (conj _ _))); simpl; [| done | done | lia].
    intros i Hi. by apply elem_of_nil in Hi.
  - destruct (poll_turn_events _ _ _ Hturn) as (_ & Hd & _ & Hinfo & Hnone & Hone & _).
    assert (Hcalls : progress_calls (Fetch req :: extra) = progress_calls extra)
      by reflexivity.
    assert (Hdelays : delays (Fetch req :: extra) = []) by exact Hd.
    rewrite Hcalls, Hdelays.
    refine (conj _ (conj _ (conj _ _))).
    + intros i Hi. destruct (Hinfo i Hi) as [-> Hs]. simpl.
      repeat split; [lia | lia | done].
    + destruct (progress_calls extra) as [| i [| ? ?]] eqn:Hextra;
        [done | | simpl in Hone; lia].
      destruct (Hinfo i ltac:(by apply list_elem_of_singleton)) as [-> _].
      simpl. f_equal. lia.
    + intros Hcallback. by rewrite Hcallback in Hnone.
    + intros _. simpl. lia.
Qed.

(** With a callback, either every call returned and each was followed by
    its delay, or the last call threw and ended the run. *)
Lemma poll_run_calls attemptsLeft c t f :
  onProgress = Some f ->
  poll_run req totalAttempts ms onProgress attemptsLeft c t ->
  (Forall (fun i => f i = Return ()) (progress_calls t)
   /\ length (progress_calls t) = length (delays t))
  \/ (exists earlier i cause,
        progress_calls t = earlier ++ [i]
        /\ Forall (fun i => f i = Return ()) earlier
        /\ f i = Throw cause
        /\ c = Throw ("Error checking generation: " +:+ cause)
        /\ length (progress_calls t) = S (length (delays t))
        /\ last t = Some (OnProgress i)).
Proof.
  intros Hcallback.
  induction 1 as [a Ha | a extra c t Ha Hturn Hrun IH | a files extra Ha Hturn
                  | a message extra Ha Hturn].
  - left. by split; [constructor |].
  - inversion Hturn as [s Hs Hreturned Hc Hextra | | |].
    rewrite Hcallback; cbn [notified app].
    change (Fetch req :: OnProgress (progress_info s a totalAttempts) :: Delay ms :: t)
      with ([Fetch req; OnProgress (progress_info s a totalAttempts); Delay ms] ++ t).
    rewrite progress_calls_app, delays_app. cbn [progress_calls delays omap list_omap app].
    destruct IH as [[Hall Hcount]
                   | (earlier & i & cause & Hcalls & Hall & Hi & Hc' & Hcount & Hlast)].
    + left. split; [constructor; [by apply Hreturned | done] | simpl; lia].
    + right. exists (progress_info s a totalAttempts :: earlier), i, cause.
      rewrite Hcalls. split; [done |].
      split; [constructor; [by apply Hreturned | done] |].
      split; [done |]. split; [done |].
      split; [rewrite <- Hcalls; simpl; lia |].
      destruct t as [| e t]; [done |]. exact Hlast.
  - inversion Hturn. left. by split; [constructor |].
  - inversion Hturn as [| | cause Hc Hextra | f' s cause Hf' Hs Hthrows Hc Hextra].
    + left. by split; [constructor |].
    + right. exists [], (progress_info s a totalAttempts), cause.
      assert (f' = f) as -> by congruence.
      by repeat split.
Qed.

End Runs.

(** Every run of [checkGeneration] is a run of the loop that starts with
    all the attempts. *)
Lemma checkGeneration_runs type_error service this requestId options :
  exists c t,
    run (checkGeneration type_error service this requestId options)
    = (c, {| requests := length (fetches t); trace := t |})
    /\ poll_run (status_request this requestId) (default 20 (attempts options))
         (default 5000 (delay options)) (onProgress options)
         (default 20 (attempts options)) c t.
Proof.
  unfold run, checkGeneration.
  destruct (poll_runs type_error service this requestId (default 20 (attempts options))
              (default 5000 (delay options)) (onProgress options)
              (Z.to_nat (default 20 (attempts options)))
              (default 20 (attempts options)) initial eq_refl)
    as (c & t & Hpoll & Hrun).
  exists c, t. by rewrite Hpoll.
Qed.

(** X16. For an integer number of attempts: whatever the service answers
    and whatever the callback does, [checkGeneration] never issues more
    status requests than it has attempts; all its requests are the same
    status request of the job; every delay is the configured one, and
    there are never more delays than requests. *)
Theorem checkGeneration_bounded type_error service this requestId options :
  let n := default 20 (attempts options) in
  let ms := default 5000 (delay options) in
  let req := status_request this requestId in
  let final := run (checkGeneration type_error service this requestId options) in
  (requests (snd final) <= Z.to_nat n)%nat
  /\ fetches (trace (snd final)) = replicate (requests (snd final)) req
  /\ delays (trace (snd final)) = replicate (length (delays (trace (snd final)))) ms
  /\ (length (delays (trace (snd final))) <= requests (snd final))%nat
  /\ downloads (trace (snd final)) = [].
Proof.
  intros n ms req final.
  destruct (checkGeneration_runs type_error service this requestId options)
    as (c & t & Hfinal & Hrun).
  fold final in Hfinal. rewrite Hfinal; cbn [snd requests trace].
  destruct (poll_run_requests _ _ _ _ _ _ _ _ Hrun)
    as (Hle & Hfetches & Hdelays & Hdownloads & _ & _ & _ & Hfewer).
  by repeat split.
Qed.

(** X17. Every error of [checkGeneration] is either the timeout
    ["Generation timed out"] or reads ["Error checking generation: ..."].
    It throws the timeout only after it has used all its attempts, each
    followed by its delay; in every other run, the last request is
    followed by no delay. *)
Theorem checkGeneration_outcomes type_error service this requestId options :
  let n := default 20 (attempts options) in
  let final := run (checkGeneration type_error service this requestId options) in
  (forall message, fst final = Throw message ->
     message = "Generation timed out"
     \/ exists cause, message = "Error checking generation: " +:+ cause)
  /\ (fst final = Throw "Generation timed out" ->
        requests (snd final) = Z.to_nat n
        /\ length (delays (trace (snd final))) = Z.to_nat n)
  /\ (fst final <> Throw "Generation timed out" ->
        requests (snd final) = S (length (delays (trace (snd final))))).
Proof.
  intros n final.
  destruct (checkGeneration_runs type_error service this requestId options)
    as (c & t & Hfinal & Hrun).
  fold final in Hfinal. rewrite Hfinal; cbn [fst snd requests trace].
  destruct (poll_run_requests _ _ _ _ _ _ _ _ Hrun)
    as (_ & _ & _ & _ & Htimeout & Hother & Hthrow & _).
  split; [| split].
  - intros message ->. by apply Hthrow.
  - exact Htimeout.
  - exact Hother.
Qed.

(** A job that fails at the second of two attempts does not time out. *)
Lemma checkGeneration_outcomes_witness :
  requests (snd (run (checkGeneration v8_type_error
                        (scripted [example_pending; example_fail])
                        example_client "job-1"
                        {| attempts := Some 2; delay := Some 10; onProgress := None |})))
  = S (length (delays (trace (snd (run (checkGeneration v8_type_error
                        (scripted [example_pending; example_fail])
                        example_client "job-1"
                        {| attempts := Some 2; delay := Some 10;
                           onProgress := None |})))))).
Proof.
  apply (checkGeneration_outcomes v8_type_error (scripted [example_pending; example_fail])
           example_client "job-1"
           {| attempts := Some 2; delay := Some 10; onProgress := None |}).
  discriminate.
Defined.

(** X18. For an integer number of attempts: in every run of
    [checkGeneration], each call of the progress callback reports a
    non-terminal status, the number of attempts as [totalAttempts], and an
    [attemptsLeft] between 1 and that number; from call to call
    [attemptsLeft] goes down by one, starting from the number of attempts.
    Without a callback nothing is called. With one, either every call
    returned and there is one call per delay, or the last call threw while
    all the earlier ones returned: then the run ends with the error of the
    callback, that call is its last event, and there is one call more than
    delays. *)
Theorem checkGeneration_progress_reports type_error service this requestId options :
  let n := default 20 (attempts options) in
  let final := run (checkGeneration type_error service this requestId options) in
  let calls := progress_calls (trace (snd final)) in
  (forall i, i ∈ calls ->
     Progress.totalAttempts i = n
     /\ 1 <= Progress.attemptsLeft i <= n
     /\ non_terminal (Progress.status i) = true)
  /\ map Progress.attemptsLeft calls
     = map (fun j => n - Z.of_nat j) (seq 0 (length calls))
  /\ (onProgress options = None -> calls = [])
  /\ (is_Some (onProgress options) ->
        length (delays (trace (snd final))) <= length calls
        <= S (length (delays (trace (snd final)))))%nat
  /\ (forall f,
        onProgress options = Some f ->
        (Forall (fun i => f i = Return ()) calls
         /\ length calls = length (delays (trace (snd final))))
        \/ (exists earlier i cause,
              calls = earlier ++ [i]
              /\ Forall (fun i => f i = Return ()) earlier
              /\ f i = Throw cause
              /\ fst final = Throw ("Error checking generation: " +:+ cause)
              /\ length calls = S (length (delays (trace (snd final))))
              /\ last (trace (snd final)) = Some (OnProgress i))).
Proof.
  intros n final calls.
  destruct (checkGeneration_runs type_error service this requestId options)
    as (c & t & Hfinal & Hrun).
  unfold calls. fold final in Hfinal. rewrite Hfinal; cbn [fst snd trace].
  destruct (poll_run_progress _ _ _ _ _ _ _ _ Hrun) as (Hinfo & Hleft & Hnone & Hcount).
  split; [done |]. split; [done |]. split; [done |]. split; [done |].
  intros f Hcallback. by eapply poll_run_calls.
Qed.

(** Three pending polls with a callback: it hears 5, 4 and 3. *)
Lemma checkGeneration_progress_reports_witness :
  map Progress.attemptsLeft
    (progress_calls
       (trace (snd (run (checkGeneration v8_type_error
                           (scripted [example_pending; example_pending; example_pending;
                                      example_done])
                           example_client "job-1"
                           {| attempts := Some 5; delay := Some 10;
                              onProgress := Some (fun _ => Return ()) |})))))
  = [5; 4; 3].
Proof.
  rewrite (proj1 (proj2 (checkGeneration_progress_reports v8_type_error
                           (scripted [example_pending; example_pending; example_pending;
                                      example_done])
                           example_client "job-1"
                           {| attempts := Some 5; delay := Some 10;
                              onProgress := Some (fun _ => Return ()) |}))).
  reflexivity.
Defined.

(** *** saveImages: names and links *)











(** *** constructor: what every request carries *)

Lemma prefix_append (a b : string) : String.prefix a (a +:+ b) = true.
Proof.
  induction a as [| x a IH]; simpl; [by destruct b |].
  by destruct (Ascii.ascii_dec x x).
Qed.

Lemma append_assoc (a b c : string) : (a +:+ b) +:+ c = a +:+ (b +:+ c).
Proof.
  induction a as [| x a IH]; [reflexivity |].
  change (String x ((a +:+ b) +:+ c) = String x (a +:+ (b +:+ c))). by f_equal.
Qed.

(** X21. Every request that [getPipeline], [generate] and
    [checkGeneration] issue for a client built by the constructor carries
    exactly the two headers [X-Key: Key <apiKey>] and
    [X-Secret: Secret <secretKey>], and its URL starts with the base URL of
    the client followed by [key/api/v1/]; the base URL is
    [https://api-key.fusionbrain.ai/] when none is given. *)
Theorem constructor_requests_authenticated type_error service apiKey secretKey endpoint
    prompt pipelineId options requestId check req :
  let this := constructor apiKey secretKey endpoint in
  req ∈ fetches (trace (snd (run (getPipeline type_error service this))))
  \/ req ∈ fetches (trace (snd (run (generate type_error service this
                                       prompt pipelineId options))))
  \/ req ∈ fetches (trace (snd (run (checkGeneration type_error service this
                                       requestId check)))) ->
  headers req !! "X-Key" = Some ("Key " +:+ apiKey)
  /\ headers req !! "X-Secret" = Some ("Secret " +:+ secretKey)
  /\ (forall k, k <> "X-Key" -> k <> "X-Secret" -> headers req !! k = None)
  /\ String.prefix (default default_url endpoint +:+ "key/api/v1/") (url req) = true.
Proof.
  intros this Hreq.
  assert (Hcases : req = pipelines_request this
                   \/ req = run_request this pipelineId (generate_params prompt options)
                   \/ req = status_request this requestId).
  { destruct Hreq as [Hreq | [Hreq | Hreq]].
    - rewrite getPipeline_trace in Hreq.
      apply list_elem_of_singleton in Hreq. by left.
    - rewrite generate_trace in Hreq.
      apply list_elem_of_singleton in Hreq. by right; left.
    - destruct (checkGeneration_runs type_error service this requestId check)
        as (c & t & Hfinal & Hrun).
      rewrite Hfinal in Hreq; cbn [snd trace] in Hreq.
      destruct (poll_run_requests _ _ _ _ _ _ _ _ Hrun) as (_ & Hfetches & _).
      rewrite Hfetches in Hreq. apply elem_of_replicate in Hreq as [-> _].
      by right; right. }
  assert (Hheaders : headers req = AUTH_HEADERS this)
    by (by destruct Hcases as [-> | [-> | ->]]).
  rewrite Hheaders. unfold this, constructor; cbn [AUTH_HEADERS].
  split; [by simplify_map_eq |]. split; [by simplify_map_eq |].
  split; [intros k Hkey Hsecret; by simplify_map_eq |].
  destruct Hcases as [-> | [-> | ->]]; cbn [url pipelines_request run_request
                                             status_request URL constructor this].
  - change "key/api/v1/pipelines" with ("key/api/v1/" +:+ "pipelines").
    rewrite <- append_assoc. apply prefix_append.
  - change "key/api/v1/pipeline/run" with ("key/api/v1/" +:+ "pipeline/run").
    rewrite <- append_assoc. apply prefix_append.
  - change ("key/api/v1/pipeline/status/" +:+ requestId)
      with ("key/api/v1/" +:+ ("pipeline/status/" +:+ requestId)).
    rewrite <- append_assoc. apply prefix_append.
Qed.

(** The status request of a client built with the default URL. *)
Lemma constructor_requests_authenticated_witness :
  headers (status_request example_client "job-1") !! "X-Key" = Some "Key k"
  /\ String.prefix "https://api-key.fusionbrain.ai/key/api/v1/"
       (url (status_request example_client "job-1")) = true.
Proof.
  destruct (constructor_requests_authenticated v8_type_error (scripted [example_done])
              "k" "s" None "a red fox" "pipeline-1" ∅ "job-1" no_check_options
              (status_request example_client "job-1"))
    as (Hkey & _ & _ & Hurl).
  - right; right. apply elem_of_cons; by left.
  - split; [exact Hkey | exact Hurl].
Defined.
